(** * tfrun: a guard-rail wrapper around terraform

    Shallow embedding of [tfrun.py] and the properties of its environment
    check, confirmation prompt and plan-file life cycle.

    The script touches four pieces of the outside world: the current working
    directory, the files of that directory (the variables file holding the
    magic string, and the [.tfplan] file), the operator's standard input, and
    the terraform binary.  They are modelled by an explicit process state and
    a state-and-exception monad; every effect is recorded in a trace. *)

From Stdlib Require Import String Ascii List Bool ZArith Lia.
From stdpp Require Import gmap strings.
Import ListNotations.

Open Scope string_scope.
Open Scope list_scope.

(** ** Text

    A Python [str] is modelled by [string]; an [ascii] stands for a code
    point below 256. *)

Module Text.

Definition LF : ascii := "010"%char.
Definition CR : ascii := "013"%char.

(** [str.isspace] on the code points below 256: TAB, LF, VT, FF, CR, the
    separators FS, GS, RS, US, the space, NEL and the no-break space. *)
Definition isspace (c : ascii) : bool :=
  let n := nat_of_ascii c in
  (Nat.leb 9 n && Nat.leb n 13) || (Nat.leb 28 n && Nat.leb n 32)
  || Nat.eqb n 133 || Nat.eqb n 160.

(** [s.lstrip()] *)
Fixpoint lstrip (s : string) : string :=
  match s with
  | String c s' => if isspace c then lstrip s' else s
  | EmptyString => EmptyString
  end.

(** [s.rstrip()] *)
Fixpoint rstrip (s : string) : string :=
  match s with
  | String c s' =>
      match rstrip s' with
      | EmptyString => if isspace c then EmptyString else String c EmptyString
      | r => String c r
      end
  | EmptyString => EmptyString
  end.

(** [s.strip()] *)
Definition strip (s : string) : string := rstrip (lstrip s).

(** [s.split(sep)] for a separator of one character: never the empty
    list, the empty string gives one empty field. *)
Fixpoint split (sep : ascii) (s : string) : list string :=
  match s with
  | EmptyString => [EmptyString]
  | String c s' =>
      if Ascii.eqb c sep then EmptyString :: split sep s'
      else match split sep s' with
           | f :: fs => String c f :: fs
           | [] => [String c EmptyString]
           end
  end.

(** [f.readline()] on a file just opened in text mode, given the whole
    text of the file.  The default universal-newlines mode ends a line at
    LF, CR or CR LF and hands each of them over as LF. *)
Fixpoint readline (contents : string) : string :=
  match contents with
  | EmptyString => EmptyString
  | String c rest =>
      if Ascii.eqb c LF || Ascii.eqb c CR then String LF EmptyString
      else String c (readline rest)
  end.

(** [os.path.basename(p)]: what follows the last slash. *)
Definition basename (p : string) : string := List.last (split "/" p) EmptyString.

(** [s.upper()] on ASCII letters, the only ones the script applies it to
    (the six action keywords). *)
Definition upper_char (c : ascii) : ascii :=
  let n := nat_of_ascii c in
  if Nat.leb 97 n && Nat.leb n 122 then ascii_of_nat (n - 32) else c.

Fixpoint upper (s : string) : string :=
  match s with
  | EmptyString => EmptyString
  | String c s' => String (upper_char c) (upper s')
  end.

End Text.

(** ** The outside world *)

(** [class Environment(Enum)] *)
Inductive Environment : Set :=
| INVALID | TESTING | DEVELOPMENT | STAGING | PRODUCTION.

(** [env.value] and [env.name] *)
Definition Environment_value (env : Environment) : Z :=
  match env with
  | INVALID => 0 | TESTING => 1 | DEVELOPMENT => 2 | STAGING => 3 | PRODUCTION => 4
  end.

Definition Environment_name (env : Environment) : string :=
  match env with
  | INVALID => "INVALID"
  | TESTING => "TESTING"
  | DEVELOPMENT => "DEVELOPMENT"
  | STAGING => "STAGING"
  | PRODUCTION => "PRODUCTION"
  end.

(** A regular file of the working directory: either it can be opened for
    reading and has a text, or it exists and opening it is refused.  The
    working directory maps the names of its regular files to them; the
    script only uses relative names.  The text is the decoded one: a file
    whose bytes do not decode is not modelled. *)
Inductive node : Set :=
| Readable (contents : string)
| Unreadable.

(** The exceptions the script can meet.  [ValueError] is raised by the script
    itself; [FileNotFoundError] by [open], [unlink] and [subprocess.call] on
    a path that does not exist; [PermissionError] stands for the other
    [OSError]s of [open]; [EOFError] is [input] on a closed standard input. *)
Inductive exn : Set :=
| ValueError (msg : string)
| FileNotFoundError (filename : string)
| PermissionError (filename : string)
| EOFError.

(** [str(e)] *)
Definition str (e : exn) : string :=
  match e with
  | ValueError msg => msg
  | FileNotFoundError f => "[Errno 2] No such file or directory: '" +:+ f +:+ "'"
  | PermissionError f => "[Errno 13] Permission denied: '" +:+ f +:+ "'"
  | EOFError => "EOF when reading a line"
  end.

(** What an observer of the process sees, in order. *)
Inductive event : Set :=
| Open (path : string)
| Input (prompt : string)
| Print (text : string)
| Call (argv : list string)
| Unlink (path : string).

Record process : Type := mkProcess {
  cwd : string;                    (* os.getcwd() *)
  files : gmap string node;        (* regular files of the working directory *)
  stdin : list string;             (* the lines the operator will type *)
  trace : list event               (* effects so far, oldest first *)
}.

Definition with_files (fs : gmap string node) (p : process) : process :=
  mkProcess (cwd p) fs (stdin p) (trace p).
Definition with_stdin (l : list string) (p : process) : process :=
  mkProcess (cwd p) (files p) l (trace p).
Definition log (e : event) (p : process) : process :=
  mkProcess (cwd p) (files p) (stdin p) (trace p ++ [e]).

(** ** State and exception monad *)

Inductive result (A : Type) : Type :=
| Return (a : A)
| Raise (e : exn).
Arguments Return {A} a.
Arguments Raise {A} e.

Definition M (A : Type) : Type := process -> result A * process.

Definition ret {A} (a : A) : M A := fun p => (Return a, p).
Definition raise {A} (e : exn) : M A := fun p => (Raise e, p).
Definition bind {A B} (m : M A) (k : A -> M B) : M B :=
  fun p => match m p with
           | (Return a, p') => k a p'
           | (Raise e, p') => (Raise e, p')
           end.
(** [try: body except ...: handler] *)
Definition try_except {A} (body : M A) (handler : exn -> M A) : M A :=
  fun p => match body p with
           | (Return a, p') => (Return a, p')
           | (Raise e, p') => handler e p'
           end.

Declare Scope py_scope.
Delimit Scope py_scope with py.
Notation "x <- m ;; k" := (bind m (fun x => k))
  (at level 100, m at next level, right associativity) : py_scope.
Notation "m ;; k" := (bind m (fun _ => k))
  (at level 100, right associativity) : py_scope.
Open Scope py_scope.

(** *** Primitives *)

Definition getcwd : M string := fun p => (Return (cwd p), p).

(** [open(path, "r")] followed by reads: the text of the file. *)
Definition open (path : string) : M string :=
  fun p => let p' := log (Open path) p in
           match files p !! path with
           | Some (Readable contents) => (Return contents, p')
           | Some Unreadable => (Raise (PermissionError path), p')
           | None => (Raise (FileNotFoundError path), p')
           end.

(** [print(text)] *)
Definition print (text : string) : M unit :=
  fun p => (Return tt, log (Print text) p).

(** [input(prompt)]: the next line typed, without its newline. *)
Definition input (prompt : string) : M string :=
  fun p => let p' := log (Input prompt) p in
           match stdin p with
           | answer :: rest => (Return answer, with_stdin rest p')
           | [] => (Raise EOFError, p')
           end.

(** [Path(path).is_file()] *)
Definition has_file (fs : gmap string node) (path : string) : bool :=
  match fs !! path with
  | Some _ => true
  | None => false
  end.

Definition is_file (path : string) : M bool :=
  fun p => (Return (has_file (files p) path), p).

(** [Path(path).unlink()] *)
Definition unlink (path : string) : M unit :=
  fun p => match files p !! path with
           | Some _ => (Return tt, log (Unlink path) (with_files (delete path (files p)) p))
           | None => (Raise (FileNotFoundError path), p)
           end.

(** ** The script *)

Definition AFILE : string := "variables.tf".
Definition TERRAFORMPATH : string := "/home/brianprovenzano/terraform/".

(** The parsed command line: [args.action] and [args.yes]. *)
Record Args : Set := mkArgs { action : string; yes : bool }.

Definition invalid_environment : string :=
  "The environment cannot be determined from tfvars file!! "
  +:+ "Likely invalid format for magic string "
  +:+ "on first line of local env tfvars.tf file OR in an invalid/unknown current "
  +:+ "working directory (environment) for the terraform project".

Definition invalid_format : string :=
  "The environment cannot be determined from tfvars file!! "
  +:+ "Likely invalid format for magic string on first line of "
  +:+ "local env tfvars.tf file.".

Definition no_plan_file : string :=
  "Cannot find a .tfplan file!! Did you run 'plan' before "
  +:+ "this 'apply'?".

Definition unsupported_action : string :=
  "You must enter either 'apply', 'plan' "
  +:+ "'destroy', 'removeplanfile', 'validate' or 'get-update'. "
  +:+ "Other options are not supported at this time".

Definition file_not_found (fe : string) : string :=
  "The file not found - REASON [" +:+ fe +:+ "] " +:+ String Text.LF
  ("Check your current environment directory for the correctly "
   +:+ "formatted local env tfvars.tf file and ensure terraform "
   +:+ "is located in the directory specified in this script."
   +:+ "It is also possible that you may not have the correct "
   +:+ "format for the magic string on the first line of the vars file. "
   +:+ "See this script's source code for details on "
   +:+ "creating one if needed.").

Definition unknown_error (e : string) : string :=
  "Unknown error - REASON: " +:+ e.

Definition removed_plan_file : string :=
  String Text.LF " Removed previous local terraform plan file!!".

(** Check the current terraform environment for sanity. *)
Definition CheckEnvironment (afile : string) : M Environment :=
  wd <- getcwd ;;
  let currentWorkingDirectory := Text.basename wd in
  f <- open afile ;;
  let alist := Text.split "|" (Text.strip (Text.readline f)) in
  if Nat.eqb (length alist) 2 then
    let line := nth 1 alist "" in
    if String.eqb line "testing" && String.eqb currentWorkingDirectory "testing" then
      ret TESTING
    else if String.eqb line "development" && String.eqb currentWorkingDirectory "development" then
      ret DEVELOPMENT
    else if String.eqb line "staging" && String.eqb currentWorkingDirectory "staging" then
      ret STAGING
    else if String.eqb line "production" && String.eqb currentWorkingDirectory "production" then
      ret PRODUCTION
    else
      raise (ValueError invalid_environment)
  else
    raise (ValueError invalid_format).

(** Prompt user with current env to perform tf action on. *)
Definition PromptQuestion (TFAction : string) (env : Environment) : string :=
  String Text.LF " " +:+ Environment_name env
  +:+ " selected!!: Are you sure you wish to run "
  +:+ "'terraform " +:+ TFAction +:+ "' on the " +:+ Environment_name env
  +:+ " environment?: ".

(** Run action info message (returned, not printed). *)
Definition DisplayAction (TFAction : string) (env : Environment) : string :=
  String Text.LF " " +:+ Environment_name env
  +:+ " selected!!: Running  "
  +:+ "'terraform " +:+ TFAction +:+ "' on the " +:+ Environment_name env
  +:+ " environment! ".

Section Script.

(** The terraform binary: given its argument vector and the files of the
    working directory, either there is no such program ([None]), or it runs,
    changes the files as it pleases and exits with a status.  A program
    file that is there and cannot be executed is not modelled. *)
Variable terraform :
  list string -> gmap string node -> option (Z * gmap string node).

(** [subprocess.call(argv)]: the exit status whatever it is; raises
    [FileNotFoundError] when there is no program at the path. *)
Definition call (argv : list string) : M Z :=
  fun p => let p' := log (Call argv) p in
           match terraform argv (files p) with
           | Some (status, fs) => (Return status, with_files fs p')
           | None => (Raise (FileNotFoundError (hd "" argv)), p')
           end.

(** Wraps up a 'terraform plan' call. *)
Definition RunTerraformPlan : M unit :=
  call [TERRAFORMPATH +:+ "terraform"; "get"] ;;
  let previousPlan := ".tfplan" in
  present <- is_file previousPlan ;;
  (if present : bool then unlink previousPlan else ret tt) ;;
  call [TERRAFORMPATH +:+ "terraform"; "plan"; "-out=.tfplan"] ;;
  ret tt.

(** Wraps up a 'terraform get -update' call. *)
Definition RunTerraformGetUpdate : M unit :=
  call [TERRAFORMPATH +:+ "terraform"; "get"; "-update"] ;;
  ret tt.

(** Wraps up a 'terraform validate' call. *)
Definition RunTerraformValidate : M unit :=
  call [TERRAFORMPATH +:+ "terraform"; "validate"] ;;
  ret tt.

(** Remove a plan file if you don't plan on applying. *)
Definition RemoveTFPlanFile : M unit :=
  let previousPlan := ".tfplan" in
  present <- is_file previousPlan ;;
  if present : bool then
    unlink previousPlan ;;
    print removed_plan_file
  else ret tt.

(** Wraps up a 'terraform apply' call. *)
Definition RunTerraformApply : M unit :=
  let previousPlan := ".tfplan" in
  present <- is_file previousPlan ;;
  if present : bool then
    call [TERRAFORMPATH +:+ "terraform"; "apply .tfplan"] ;;
    unlink previousPlan
  else
    raise (ValueError no_plan_file).

(** Wraps up a 'terraform destroy' call. *)
Definition RunTerraformDestroy : M unit :=
  call [TERRAFORMPATH +:+ "terraform"; "destroy"] ;;
  ret tt.

Definition Main (args : Args) : M unit :=
  let terraformAction := Text.lstrip (action args) in
  try_except
    ((* check the environment first *)
     currentEnvironment <- CheckEnvironment AFILE ;;
     (* Run the action requested *)
     if String.eqb terraformAction "plan" then
       let action := Text.upper terraformAction in
       if yes args then
         let _ := DisplayAction action currentEnvironment in
         RunTerraformPlan
       else
         answer <- input (PromptQuestion action currentEnvironment) ;;
         let answer := if String.eqb (Text.lstrip answer) "yes" then true else false in
         if answer then
           let _ := DisplayAction action currentEnvironment in
           RunTerraformPlan
         else ret tt
     else if String.eqb terraformAction "apply" then
       let action := Text.upper terraformAction in
       if yes args then
         let _ := DisplayAction action currentEnvironment in
         RunTerraformApply
       else
         answer <- input (PromptQuestion action currentEnvironment) ;;
         let answer := if String.eqb (Text.lstrip answer) "yes" then true else false in
         if answer then
           let _ := DisplayAction action currentEnvironment in
           RunTerraformApply
         else ret tt
     else if String.eqb terraformAction "destroy" then
       let action := Text.upper terraformAction in
       if yes args then
         let _ := DisplayAction action currentEnvironment in
         RunTerraformDestroy
       else
         answer <- input (PromptQuestion action currentEnvironment) ;;
         let answer := if String.eqb (Text.lstrip answer) "yes" then true else false in
         if answer then
           let _ := DisplayAction action currentEnvironment in
           RunTerraformDestroy
         else ret tt
     else if String.eqb terraformAction "get-update" then
       let action := Text.upper terraformAction in
       if yes args then
         let _ := DisplayAction action currentEnvironment in
         RunTerraformGetUpdate
       else
         answer <- input (PromptQuestion action currentEnvironment) ;;
         let answer := if String.eqb (Text.lstrip answer) "yes" then true else false in
         if answer then
           let _ := DisplayAction action currentEnvironment in
           RunTerraformGetUpdate
         else ret tt
     else if String.eqb terraformAction "validate" then
       let action := Text.upper terraformAction in
       (* Skip on validate - its safe *)
       let _ := DisplayAction action currentEnvironment in
       RunTerraformValidate
     else if String.eqb terraformAction "removeplanfile" then
       let action := Text.upper terraformAction in
       let _ := DisplayAction action currentEnvironment in
       RemoveTFPlanFile
     else
       print unsupported_action)
    (fun e =>
       match e with
       | ValueError _ => print (str e)
       | FileNotFoundError _ => print (file_not_found (str e))
       | _ => print (unknown_error (str e))
       end).

End Script.

(** A stand-in for terraform on which the script can be run: every command
    starts and exits with 0, and [plan -out=.tfplan] writes the plan file. *)
Definition terraform_ok (argv : list string) (fs : gmap string node)
  : option (Z * gmap string node) :=
  match argv with
  | [_; "plan"; "-out=.tfplan"] => Some (0%Z, <[".tfplan" := Readable "plan"]> fs)
  | _ => Some (0%Z, fs)
  end.

(** A working directory with a variables file of one line. *)
Definition directory (first_line : string) : gmap string node :=
  {[ AFILE := Readable (first_line +:+ String Text.LF "# VARIABLES") ]}.

Definition start (wd : string) (fs : gmap string node) (typed : list string) : process :=
  mkProcess wd fs typed [].

(** ** Vocabulary of the properties *)

(** The four names [CheckEnvironment] knows, with the member of the
    enumeration each of its branches returns. *)
Definition known_environments : list (string * Environment) :=
  [("testing", TESTING); ("development", DEVELOPMENT);
   ("staging", STAGING); ("production", PRODUCTION)].

(** The second field of a line cut at every bar, whatever the number of
    fields. *)
Definition second_field (line : string) : option string :=
  nth_error (Text.split "|" line) 1.

(** External commands and deletions, as opposed to reads and messages. *)
Definition is_command (e : event) : bool :=
  match e with
  | Call _ | Unlink _ => true
  | _ => false
  end.

(** The four actions behind the confirmation prompt, and all six. *)
Definition confirm_required : list string :=
  ["plan"; "apply"; "destroy"; "get-update"].
Definition keywords : list string :=
  confirm_required ++ ["validate"; "removeplanfile"].

(** Strings made of whitespace only, and the number of occurrences of a
    character. *)
Fixpoint all_space (s : string) : bool :=
  match s with
  | EmptyString => true
  | String c s' => Text.isspace c && all_space s'
  end.

Fixpoint count (sep : ascii) (s : string) : nat :=
  match s with
  | EmptyString => 0
  | String c s' => (if Ascii.eqb c sep then 1 else 0) + count sep s'
  end.

(** The first line of the variables file as the check reads it: without
    its end of line and the blanks around it. *)
Definition first_line (afile : string) (fs : gmap string node) : string :=
  match fs !! afile with
  | Some (Readable contents) => Text.strip (Text.readline contents)
  | _ => EmptyString
  end.

(** The path the script calls terraform by. *)
Definition terraform_bin : string := TERRAFORMPATH +:+ "terraform".

(** What the [except] clauses of [Main] print for an exception. *)
Definition report (e : exn) : string :=
  match e with
  | ValueError _ => str e
  | FileNotFoundError _ => file_not_found (str e)
  | _ => unknown_error (str e)
  end.

(** The function each branch of [Main] ends in. *)
Definition runner (t : list string -> gmap string node -> option (Z * gmap string node))
    (keyword : string) : M unit :=
  if String.eqb keyword "plan" then RunTerraformPlan t
  else if String.eqb keyword "apply" then RunTerraformApply t
  else if String.eqb keyword "destroy" then RunTerraformDestroy t
  else if String.eqb keyword "get-update" then RunTerraformGetUpdate t
  else if String.eqb keyword "validate" then RunTerraformValidate t
  else if String.eqb keyword "removeplanfile" then RemoveTFPlanFile
  else print unsupported_action.

(** The [except] clauses of [Main]. *)
Definition except_clauses (e : exn) : M unit :=
  match e with
  | ValueError _ => print (str e)
  | FileNotFoundError _ => print (file_not_found (str e))
  | _ => print (unknown_error (str e))
  end.

(** A process [q] continues [p]: its trace is the trace of [p] and more.
    A computation is growing when it only ever adds to the trace. *)
Definition extends (p q : process) : Prop :=
  exists evs, trace q = trace p ++ evs.

Definition growing {A} (m : M A) : Prop := forall p, extends p (snd (m p)).

(** *** What a run can do *)

(** The six keywords with the function the branch of [Main] for each of
    them calls. *)
Definition action_table
    (t : list string -> gmap string node -> option (Z * gmap string node))
  : list (string * M unit) :=
  [("plan", RunTerraformPlan t); ("apply", RunTerraformApply t);
   ("destroy", RunTerraformDestroy t); ("get-update", RunTerraformGetUpdate t);
   ("validate", RunTerraformValidate t); ("removeplanfile", RemoveTFPlanFile)].

(** Whether an action word is one of the four that are put to the
    operator. *)
Definition confirms (keyword : string) : bool :=
  existsb (String.eqb keyword) confirm_required.

(** The argument vectors the script hands to terraform, without the path
    of the binary in front. *)
Definition command_lines : list (list string) :=
  [["get"]; ["plan"; "-out=.tfplan"]; ["apply .tfplan"]; ["destroy"];
   ["get"; "-update"]; ["validate"]].

(** The texts the script prints. *)
Definition messages : list string :=
  [unsupported_action; removed_plan_file;
   invalid_environment; invalid_format; no_plan_file;
   file_not_found (str (FileNotFoundError AFILE));
   file_not_found (str (FileNotFoundError terraform_bin));
   file_not_found (str (FileNotFoundError ".tfplan"));
   unknown_error (str (PermissionError AFILE));
   unknown_error (str EOFError)].

(** The events a run of the script is made of. *)
Definition script_event (e : event) : Prop :=
  match e with
  | Open path => path = AFILE
  | Input prompt =>
      exists k env, In k confirm_required /\ env <> INVALID
                    /\ prompt = PromptQuestion (Text.upper k) env
  | Print text => In text messages
  | Call argv => exists args, argv = terraform_bin :: args /\ In args command_lines
  | Unlink path => path = ".tfplan"
  end.

(** The events of the functions behind the action words: those of the
    script that are not prompts. *)
Definition is_input (e : event) : bool :=
  match e with
  | Input _ => true
  | _ => false
  end.

Definition runner_event (e : event) : Prop :=
  script_event e /\ is_input e = false.

(** The same without a word on what is printed. *)
Definition outward_event (e : event) : Prop :=
  match e with
  | Print _ => True
  | _ => script_event e
  end.

(** The exceptions that leave the functions behind the action words, and
    the ones that leave the environment check. *)
Definition runner_exn (e : exn) : Prop :=
  e = ValueError no_plan_file
  \/ e = FileNotFoundError terraform_bin
  \/ e = FileNotFoundError ".tfplan".

Definition check_exn (afile : string) (e : exn) : Prop :=
  e = FileNotFoundError afile
  \/ e = PermissionError afile
  \/ e = ValueError invalid_format
  \/ e = ValueError invalid_environment.

(** [q] follows [p] by events that all satisfy [P], in the same working
    directory. *)
Definition follows (P : event -> Prop) (p q : process) : Prop :=
  cwd q = cwd p /\ exists evs, trace q = trace p ++ evs /\ Forall P evs.

(** A computation that leaves the standard input alone, only adds events
    that satisfy [P], and only raises exceptions that satisfy [E]. *)
Definition acts (P : event -> Prop) (E : exn -> Prop) {A} (m : M A) : Prop :=
  forall p,
    follows P p (snd (m p))
    /\ stdin (snd (m p)) = stdin p
    /\ forall e, fst (m p) = Raise e -> E e.

(** Two terraforms that start on the same commands and leave the same
    files, whatever their exit statuses. *)
Definition same_files
    (t1 t2 : list string -> gmap string node -> option (Z * gmap string node)) : Prop :=
  forall argv fs, option_map snd (t1 argv fs) = option_map snd (t2 argv fs).

(** Three more stand-ins for terraform: one that does what [terraform_ok]
    does and exits with 1; one that is not there; one whose apply
    command removes the plan file itself. *)
Definition terraform_failing (argv : list string) (fs : gmap string node)
  : option (Z * gmap string node) :=
  match terraform_ok argv fs with
  | Some (_, fs') => Some (1%Z, fs')
  | None => None
  end.

Definition terraform_missing (argv : list string) (fs : gmap string node)
  : option (Z * gmap string node) := None.

Definition terraform_consuming (argv : list string) (fs : gmap string node)
  : option (Z * gmap string node) :=
  match argv with
  | [_; "apply .tfplan"] => Some (0%Z, delete ".tfplan" fs)
  | _ => terraform_ok argv fs
  end.

(** A string without end of line. *)
Definition one_line (s : string) : Prop :=
  count Text.LF s = 0 /\ count Text.CR s = 0.

(** * Properties *)

(** ** Text examples *)

Example strip_ex : Text.strip (String Text.CR (" a b  " +:+ String Text.LF "")) = "a b".
Proof. reflexivity. Qed.
Example split_ex : Text.split "|" "#environment|testing" = ["#environment"; "testing"].
Proof. reflexivity. Qed.
Example split_ex2 : Text.split "|" "a||" = ["a"; ""; ""].
Proof. reflexivity. Qed.
Example basename_ex : Text.basename "/home/me/infra/testing" = "testing".
Proof. reflexivity. Qed.
Example upper_ex : Text.upper "get-update" = "GET-UPDATE".
Proof. reflexivity. Qed.
Example readline_ex : Text.readline ("#environment|testing" +:+ String Text.CR (String Text.LF "# x")) = "#environment|testing" +:+ String Text.LF "".
Proof. reflexivity. Qed.


(** ** Runs of the script *)

(** In [production] with a matching variables file, [destroy] confirmed by
    [yes] calls terraform once. *)
Example destroy_in_production :
  trace (snd (Main terraform_ok (mkArgs "destroy" false)
                (start "/infra/production" (directory "#environment|production") ["yes"])))
  = [Open AFILE; Input (PromptQuestion "DESTROY" PRODUCTION);
     Call [terraform_bin; "destroy"]].
Proof. reflexivity. Qed.

(** In [staging] with a variables file for [production], nothing runs. *)
Example production_file_in_staging :
  Main terraform_ok (mkArgs "destroy" true)
    (start "/infra/staging" (directory "#environment|production") [])
  = (Return tt,
     log (Print invalid_environment)
       (log (Open AFILE)
          (start "/infra/staging" (directory "#environment|production") []))).
Proof. reflexivity. Qed.

(** Answers that are not [yes] leave the run at the prompt. *)
Example answers_that_abort :
  Forall (fun answer =>
            Main terraform_ok (mkArgs "destroy" false)
              (start "/infra/production" (directory "#environment|production") [answer])
            = (Return tt,
               log (Input (PromptQuestion "DESTROY" PRODUCTION))
                 (log (Open AFILE)
                    (start "/infra/production" (directory "#environment|production") []))))
         ["y"; "Yes"; ""; "no"].
Proof. repeat constructor. Qed.

(** ** Text lemmas *)

Module TextFacts.
Import Text.

Lemma lstrip_app ws s : all_space ws = true -> lstrip (ws +:+ s) = lstrip s.
Proof.
  induction ws as [|c ws IH]; simpl; [reflexivity|].
  intros [Hc Hws]%andb_prop. rewrite Hc. auto.
Qed.

Lemma length_split sep s : length (split sep s) = S (count sep s).
Proof.
  induction s as [|c s IH]; simpl; [reflexivity|].
  destruct (Ascii.eqb c sep); simpl; [now rewrite IH|].
  destruct (split sep s); simpl in *; [discriminate | exact IH].
Qed.

Lemma space_not_sep sep c :
  isspace sep = false -> isspace c = true -> Ascii.eqb c sep = false.
Proof.
  intros Hsep Hc. destruct (Ascii.eqb_spec c sep); [congruence | reflexivity].
Qed.

Lemma count_lstrip sep s : isspace sep = false -> count sep (lstrip s) = count sep s.
Proof.
  intros Hsep. induction s as [|c s IH]; simpl; [reflexivity|].
  destruct (isspace c) eqn:Hc; simpl; [|reflexivity].
  now rewrite (space_not_sep sep c Hsep Hc).
Qed.

Lemma count_rstrip sep s : isspace sep = false -> count sep (rstrip s) = count sep s.
Proof.
  intros Hsep. induction s as [|c s IH]; simpl; [reflexivity|].
  destruct (rstrip s) as [|d r] eqn:Hr.
  - simpl in IH. rewrite <- IH.
    destruct (isspace c) eqn:Hc; simpl.
    + now rewrite (space_not_sep sep c Hsep Hc).
    + lia.
  - simpl in *. lia.
Qed.

(** Stripping a line does not change the number of its fields. *)
Lemma length_split_strip sep s :
  isspace sep = false -> length (split sep (strip s)) = length (split sep s).
Proof.
  intros Hsep. unfold strip.
  now rewrite !length_split, count_rstrip, count_lstrip.
Qed.

End TextFacts.

(** ** The environment check *)

Ltac run_check :=
  unfold CheckEnvironment, bind, getcwd, open, ret, raise; simpl.

(** The check only reads: whatever it answers, the process is the one it
    started from, with the opening of the file on the trace. *)
Lemma CheckEnvironment_reads afile p :
  snd (CheckEnvironment afile p) = log (Open afile) p.
Proof.
  run_check. destruct (files p !! afile) as [[contents|]|]; simpl; try reflexivity.
  repeat (match goal with |- context [if ?b then _ else _] => destruct b end);
    reflexivity.
Qed.

(** When the check answers, and what. *)
Lemma CheckEnvironment_Return afile p env :
  fst (CheckEnvironment afile p) = Return env <->
  exists contents tag name,
    files p !! afile = Some (Readable contents)
    /\ Text.split "|" (Text.strip (Text.readline contents)) = [tag; name]
    /\ Text.basename (cwd p) = name
    /\ In (name, env) known_environments.
Proof.
  split.
  - run_check. destruct (files p !! afile) as [[contents|]|]; simpl; try discriminate.
    destruct (Text.split "|" _) as [|tag [|name [|? ?]]] eqn:Hs; simpl; try discriminate.
    intros H. exists contents, tag, name. split; [reflexivity|]. split; [exact Hs|].
    revert H. unfold known_environments.
    repeat (match goal with
            | |- context [String.eqb ?a ?b] => destruct (String.eqb_spec a b); simpl
            end);
      intros [= <-]; subst; simpl; split; auto; congruence.
  - intros (contents & tag & name & Hf & Hs & Hb & Hin).
    run_check. rewrite Hf; simpl. rewrite Hs, Hb; simpl.
    unfold known_environments in Hin. simpl in Hin.
    destruct Hin as [[= <- <-]|[[= <- <-]|[[= <- <-]|[[= <- <-]|[]]]]]; reflexivity.
Qed.

Lemma CheckEnvironment_cases afile p :
  (exists env, CheckEnvironment afile p = (Return env, log (Open afile) p))
  \/ (exists e, CheckEnvironment afile p = (Raise e, log (Open afile) p)).
Proof.
  pose proof (CheckEnvironment_reads afile p) as Hs.
  destruct (CheckEnvironment afile p) as [[env|e] q]; simpl in Hs; subst; eauto.
Qed.

(** C2, as stated, fails: a first line of three fields whose second field is
    [testing], in a directory called [testing], is refused. *)
Lemma CheckEnvironment_refuses_third_field :
  ~ (fst (CheckEnvironment AFILE
            (start "/infra/testing" (directory "#environment|testing|x") []))
     = Return TESTING
     <-> second_field (first_line AFILE (directory "#environment|testing|x"))
         = Some "testing"
         /\ Text.basename "/infra/testing" = "testing").
Proof.
  intros [_ H].
  assert (Hc : fst (CheckEnvironment AFILE
                      (start "/infra/testing" (directory "#environment|testing|x") []))
               = Raise (ValueError invalid_format))
    by reflexivity.
  rewrite Hc in H. discriminate H. split; reflexivity.
Qed.

(** C2, amended: for each of the four names, the check returns its member of
    the enumeration exactly when the variables file can be read, its first
    line, stripped of surrounding whitespace, has exactly two fields of which
    the second is that name, and the base name of the working directory is
    that name too. *)
Theorem CheckEnvironment_resolves_iff name env p :
  In (name, env) known_environments ->
  fst (CheckEnvironment AFILE p) = Return env <->
  exists contents tag,
    files p !! AFILE = Some (Readable contents)
    /\ Text.split "|" (Text.strip (Text.readline contents)) = [tag; name]
    /\ Text.basename (cwd p) = name.
Proof.
  intros Hin. rewrite CheckEnvironment_Return. split.
  - intros (contents & tag & name' & Hf & Hs & Hb & Hin').
    exists contents, tag. repeat split; trivial.
    + rewrite Hs. f_equal. f_equal.
      unfold known_environments in *; simpl in *.
      intuition congruence.
    + rewrite Hb.
      unfold known_environments in *; simpl in *.
      intuition congruence.
  - intros (contents & tag & Hf & Hs & Hb). exists contents, tag, name. auto.
Qed.

Lemma CheckEnvironment_resolves_iff_witness :
  fst (CheckEnvironment AFILE
         (start "/srv/infra/staging" (directory "#environment|staging  ") []))
  = Return STAGING.
Proof.
  apply (CheckEnvironment_resolves_iff "staging" STAGING).
  - simpl; auto.
  - eexists _, _. repeat split; reflexivity.
Defined.

(** C6: the check never answers [INVALID]; and a first line that does not
    split at its bars into exactly two fields makes it raise the
    [ValueError] of the wrong format, whatever the working directory is. *)
Theorem CheckEnvironment_malformed afile p :
  fst (CheckEnvironment afile p) <> Return INVALID
  /\ forall contents,
       files p !! afile = Some (Readable contents) ->
       length (Text.split "|" (Text.readline contents)) <> 2 ->
       CheckEnvironment afile p
       = (Raise (ValueError invalid_format), log (Open afile) p).
Proof.
  split.
  - intros (? & ? & ? & _ & _ & _ & Hin)%CheckEnvironment_Return.
    unfold known_environments in Hin; simpl in Hin. intuition congruence.
  - intros contents Hf Hlen.
    rewrite <- (TextFacts.length_split_strip "|") in Hlen by reflexivity.
    run_check. rewrite Hf; simpl.
    destruct (Nat.eqb_spec (length (Text.split "|" (Text.strip (Text.readline contents)))) 2);
      [contradiction | reflexivity].
Qed.

Lemma CheckEnvironment_malformed_witness :
  CheckEnvironment AFILE (start "/infra/testing" (directory "environment testing") [])
  = (Raise (ValueError invalid_format),
     log (Open AFILE) (start "/infra/testing" (directory "environment testing") [])).
Proof.
  apply (proj2 (CheckEnvironment_malformed AFILE _)
           ("environment testing" +:+ String Text.LF "# VARIABLES")).
  - reflexivity.
  - simpl. lia.
Defined.

(** ** The trace only grows *)

Lemma extends_refl p : extends p p.
Proof. exists []. now rewrite app_nil_r. Qed.

Lemma extends_trans p q r : extends p q -> extends q r -> extends p r.
Proof.
  intros [e1 H1] [e2 H2]. exists (e1 ++ e2). now rewrite H2, H1, app_assoc.
Qed.

Lemma extends_log e p : extends p (log e p).
Proof. now exists [e]. Qed.

Create HintDb grow.

Lemma growing_ret {A} (a : A) : growing (ret a).
Proof. intros p. apply extends_refl. Qed.

Lemma growing_raise {A} e : growing (@raise A e).
Proof. intros p. apply extends_refl. Qed.

Lemma growing_bind {A B} (m : M A) (k : A -> M B) :
  growing m -> (forall a, growing (k a)) -> growing (bind m k).
Proof.
  intros Hm Hk p. unfold bind. specialize (Hm p).
  destruct (m p) as [[a|e] q]; simpl in *; [|exact Hm].
  eapply extends_trans; [exact Hm | apply Hk].
Qed.

Lemma growing_try {A} (m : M A) (h : exn -> M A) :
  growing m -> (forall e, growing (h e)) -> growing (try_except m h).
Proof.
  intros Hm Hh p. unfold try_except. specialize (Hm p).
  destruct (m p) as [[a|e] q]; simpl in *; [exact Hm|].
  eapply extends_trans; [exact Hm | apply Hh].
Qed.

Lemma growing_if {A} (b : bool) (m1 m2 : M A) :
  growing m1 -> growing m2 -> growing (if b then m1 else m2).
Proof. now destruct b. Qed.

Lemma growing_print text : growing (print text).
Proof. intros p. apply extends_log. Qed.

Lemma growing_input prompt : growing (input prompt).
Proof.
  intros p. unfold input. destruct (stdin p); simpl; apply (extends_log _ p).
Qed.

Lemma growing_is_file path : growing (is_file path).
Proof. intros p. apply extends_refl. Qed.

Lemma growing_unlink path : growing (unlink path).
Proof.
  intros p. unfold unlink. destruct (files p !! path); simpl;
    [apply (extends_log _ p) | apply extends_refl].
Qed.

Lemma growing_call terraform argv : growing (call terraform argv).
Proof.
  intros p. unfold call. destruct (terraform argv (files p)) as [[? ?]|]; simpl;
    apply (extends_log _ p).
Qed.

Lemma growing_CheckEnvironment afile : growing (CheckEnvironment afile).
Proof. intros p. rewrite CheckEnvironment_reads. apply extends_log. Qed.

#[local] Hint Resolve growing_ret growing_raise growing_print growing_input
  growing_is_file growing_unlink growing_call growing_CheckEnvironment : grow.
#[local] Hint Extern 2 (growing (bind _ _)) => apply growing_bind; [|intros ?] : grow.
#[local] Hint Extern 2 (growing (try_except _ _)) => apply growing_try; [|intros ?] : grow.
#[local] Hint Extern 2 (growing (if _ then _ else _)) => apply growing_if : grow.
#[local] Hint Extern 2 (growing (match ?e with _ => _ end)) => destruct e : grow.

Ltac grow := auto 20 with grow.

Lemma growing_RunTerraformPlan t : growing (RunTerraformPlan t).
Proof. unfold RunTerraformPlan; grow. Qed.
Lemma growing_RunTerraformApply t : growing (RunTerraformApply t).
Proof. unfold RunTerraformApply; grow. Qed.
Lemma growing_RunTerraformDestroy t : growing (RunTerraformDestroy t).
Proof. unfold RunTerraformDestroy; grow. Qed.
Lemma growing_RunTerraformGetUpdate t : growing (RunTerraformGetUpdate t).
Proof. unfold RunTerraformGetUpdate; grow. Qed.
Lemma growing_RunTerraformValidate t : growing (RunTerraformValidate t).
Proof. unfold RunTerraformValidate; grow. Qed.
Lemma growing_RemoveTFPlanFile : growing RemoveTFPlanFile.
Proof. unfold RemoveTFPlanFile; grow. Qed.

#[local] Hint Resolve growing_RunTerraformPlan growing_RunTerraformApply
  growing_RunTerraformDestroy growing_RunTerraformGetUpdate
  growing_RunTerraformValidate growing_RemoveTFPlanFile : grow.

Lemma growing_Main t args : growing (Main t args).
Proof. unfold Main; grow. Qed.

(** ** The script as a whole *)

Lemma Main_check_raises t args p e :
  fst (CheckEnvironment AFILE p) = Raise e ->
  Main t args p = (Return tt, log (Print (report e)) (log (Open AFILE) p)).
Proof.
  intros H.
  destruct (CheckEnvironment_cases AFILE p) as [[env Hc]|[e' Hc]];
    rewrite Hc in H; simpl in H; [discriminate|]. injection H as ->.
  cbv beta zeta delta [Main try_except bind]. rewrite Hc.
  destruct e; reflexivity.
Qed.

Lemma try_bind_extends {A B} (m : M A) (k : A -> M B) h p a p1 :
  m p = (Return a, p1) ->
  (forall a, growing (k a)) -> (forall e, growing (h e)) ->
  extends p1 (snd (try_except (bind m k) h p)).
Proof.
  intros Hm Hk Hh. unfold try_except, bind. rewrite Hm.
  pose proof (Hk a p1) as Hg.
  destruct (k a p1) as [[b|e] p2]; simpl in *; [exact Hg|].
  eapply extends_trans; [exact Hg | apply Hh].
Qed.

(** C1: in every run of the script, a call of terraform or a deletion on
    the trace means that the environment check answered before it: the
    variables file declares one of the four names, the base name of the
    working directory is that same name, and the check returned its member
    of the enumeration.  The opening of the variables file is the first
    event of every run, and when the check raises, the run leaves the files
    as they were. *)
Theorem Main_commands_need_environment t args wd fs typed :
  let p := start wd fs typed in
  let q := snd (Main t args p) in
  (exists rest, trace q = Open AFILE :: rest)
  /\ (forall e, In e (trace q) -> is_command e = true ->
      exists contents tag name env,
        fs !! AFILE = Some (Readable contents)
        /\ Text.split "|" (Text.strip (Text.readline contents)) = [tag; name]
        /\ Text.basename wd = name
        /\ In (name, env) known_environments
        /\ CheckEnvironment AFILE p = (Return env, log (Open AFILE) p))
  /\ (forall x, fst (CheckEnvironment AFILE p) = Raise x ->
      files q = fs /\ forall e, In e (trace q) -> is_command e = false).
Proof.
  intros p q. split; [|split].
  - destruct (CheckEnvironment_cases AFILE p) as [[env Hc]|[x Hc]].
    + assert (Hg : extends (log (Open AFILE) p) q).
      { subst q. unfold Main; cbv zeta.
        eapply try_bind_extends; [exact Hc | intros a; grow | intros e; grow]. }
      destruct Hg as [evs Hg]. rewrite Hg. simpl. eauto.
    + subst q. rewrite (Main_check_raises t args p x) by now rewrite Hc.
      simpl. eauto.
  - intros e Hin Hcmd.
    destruct (CheckEnvironment_cases AFILE p) as [[env Hc]|[x Hc]].
    + assert (Hr : fst (CheckEnvironment AFILE p) = Return env) by now rewrite Hc.
      apply CheckEnvironment_Return in Hr as (contents & tag & name & ? & ? & ? & ?).
      exists contents, tag, name, env. auto.
    + subst q. rewrite (Main_check_raises t args p x) in Hin by now rewrite Hc.
      simpl in Hin. destruct Hin as [<-|[<-|[]]]; discriminate.
  - intros x Hx. subst q. rewrite (Main_check_raises t args p x Hx). simpl.
    split; [reflexivity|]. intros e [<-|[<-|[]]]; reflexivity.
Qed.

Lemma Main_commands_need_environment_witness :
  exists contents tag name env,
    directory "#environment|production" !! AFILE = Some (Readable contents)
    /\ Text.split "|" (Text.strip (Text.readline contents)) = [tag; name]
    /\ Text.basename "/infra/production" = name
    /\ In (name, env) known_environments
    /\ CheckEnvironment AFILE
         (start "/infra/production" (directory "#environment|production") ["yes"])
       = (Return env,
          log (Open AFILE)
            (start "/infra/production" (directory "#environment|production") ["yes"])).
Proof.
  apply (proj1 (proj2 (Main_commands_need_environment terraform_ok
                         (mkArgs "destroy" false) "/infra/production"
                         (directory "#environment|production") ["yes"]))
           (Call [TERRAFORMPATH +:+ "terraform"; "destroy"])).
  - vm_compute. do 2 right. left. reflexivity.
  - reflexivity.
Defined.

(** *** [Main] as a table of actions *)

Lemma except_clauses_report e p :
  except_clauses e p = (Return tt, log (Print (report e)) p).
Proof. destruct e; reflexivity. Qed.

Lemma CheckEnvironment_returns afile p env :
  fst (CheckEnvironment afile p) = Return env ->
  CheckEnvironment afile p = (Return env, log (Open afile) p).
Proof.
  intros H. destruct (CheckEnvironment_cases afile p) as [[x Hc]|[x Hc]];
    rewrite Hc in *; simpl in H; congruence.
Qed.

Ltac main_step Hc :=
  cbv beta zeta delta [Main try_except bind]; rewrite Hc; cbv beta iota.

(** With the bypass flag, or for the two actions without a prompt, [Main]
    runs the action's function under its [except] clauses. *)
Lemma Main_direct t a y p env :
  fst (CheckEnvironment AFILE p) = Return env ->
  (y = true /\ In (Text.lstrip a) confirm_required)
  \/ In (Text.lstrip a) ["validate"; "removeplanfile"] ->
  Main t (mkArgs a y) p
  = try_except (runner t (Text.lstrip a)) except_clauses (log (Open AFILE) p).
Proof.
  intros Hc%CheckEnvironment_returns Hk. main_step Hc. cbn [action yes].
  destruct Hk as [[-> Hk]|Hk]; simpl in Hk;
    repeat (destruct Hk as [<-|Hk]; [reflexivity|]); destruct Hk.
Qed.

(** Without the flag, a confirm-required action is first put to the
    operator, whose answer is compared, leading blanks aside, to [yes]. *)
Lemma Main_prompted t a p env :
  fst (CheckEnvironment AFILE p) = Return env ->
  In (Text.lstrip a) confirm_required ->
  Main t (mkArgs a false) p
  = try_except
      (answer <- input (PromptQuestion (Text.upper (Text.lstrip a)) env) ;;
       if String.eqb (Text.lstrip answer) "yes" then runner t (Text.lstrip a)
       else ret tt)
      except_clauses (log (Open AFILE) p).
Proof.
  intros Hc%CheckEnvironment_returns Hk. main_step Hc. cbn [action yes].
  simpl in Hk. unfold try_except, bind.
  repeat (destruct Hk as [<-|Hk];
          [simpl; destruct (input _ _) as [[answer|e] q]; [|reflexivity];
           simpl; destruct (String.eqb (Text.lstrip answer) "yes"); reflexivity|]).
  destruct Hk.
Qed.

(** Any other word only gets the list of the supported actions. *)
Lemma Main_unsupported t a y p env :
  fst (CheckEnvironment AFILE p) = Return env ->
  ~ In (Text.lstrip a) keywords ->
  Main t (mkArgs a y) p
  = (Return tt, log (Print unsupported_action) (log (Open AFILE) p)).
Proof.
  intros Hc%CheckEnvironment_returns Hk. main_step Hc. cbn [action yes].
  unfold keywords, confirm_required in Hk. simpl in Hk.
  repeat (match goal with
          | |- context [String.eqb ?a ?b] =>
              destruct (String.eqb_spec a b); [exfalso; apply Hk; auto 10|]
          end).
  reflexivity.
Qed.

(** ** The confirmation prompt *)

Lemma try_prompt prompt (m : M unit) h p :
  try_except
    (answer <- input prompt ;;
     if String.eqb (Text.lstrip answer) "yes" then m else ret tt) h p
  = match stdin p with
    | answer :: rest =>
        if String.eqb (Text.lstrip answer) "yes"
        then try_except m h (with_stdin rest (log (Input prompt) p))
        else (Return tt, with_stdin rest (log (Input prompt) p))
    | [] => h EOFError (log (Input prompt) p)
    end.
Proof.
  unfold try_except, bind, input.
  destruct (stdin p) as [|answer rest]; [reflexivity|].
  destruct (String.eqb (Text.lstrip answer) "yes"); reflexivity.
Qed.

(** A confirm-required action that runs leaves a mark: a call of terraform,
    or the message of a failure. *)
Lemma runner_acts t k p :
  In k confirm_required ->
  exists e evs, trace (snd (try_except (runner t k) except_clauses p)) = trace p ++ e :: evs.
Proof.
  intros Hk. simpl in Hk.
  destruct Hk as [<-|[<-|[<-|[<-|[]]]]]; cbn [runner String.eqb Ascii.eqb Bool.eqb];
    unfold try_except, RunTerraformPlan, RunTerraformApply, RunTerraformDestroy,
      RunTerraformGetUpdate, bind, call, is_file, has_file, unlink, ret, raise; simpl;
    repeat case_match; simplify_eq; simpl;
    rewrite <- ?app_assoc; simpl; eauto.
Qed.

(** C3, as stated, fails: an answer of [yes] followed by a blank is [yes]
    once trimmed, and the action is not run. *)
Lemma trailing_blank_answer_aborts :
  Text.strip "yes " = "yes"
  /\ Main terraform_ok (mkArgs "destroy" false)
       (start "/infra/production" (directory "#environment|production") ["yes "])
     = (Return tt,
        log (Input (PromptQuestion "DESTROY" PRODUCTION))
          (log (Open AFILE)
             (start "/infra/production" (directory "#environment|production") []))).
Proof. split; reflexivity. Qed.

(** C3, amended: for plan, apply, destroy and get-update without the bypass
    flag, once the environment is resolved the operator is asked, and the
    action's function runs exactly when the answer, with its leading
    whitespace stripped, is [yes]; any other answer ends the run after the
    prompt, with no command, no change and no error.  The two outcomes are
    never the same. *)
Theorem confirmation_gate t k wd fs answer typed env :
  In k confirm_required ->
  fst (CheckEnvironment AFILE (start wd fs (answer :: typed))) = Return env ->
  let asked := log (Input (PromptQuestion (Text.upper k) env))
                 (log (Open AFILE) (start wd fs typed)) in
  let outcome := Main t (mkArgs k false) (start wd fs (answer :: typed)) in
  (Text.lstrip answer = "yes" ->
   outcome = try_except (runner t k) except_clauses asked)
  /\ (Text.lstrip answer <> "yes" -> outcome = (Return tt, asked))
  /\ try_except (runner t k) except_clauses asked <> (Return tt, asked).
Proof.
  intros Hk Hc asked outcome.
  assert (Hl : Text.lstrip k = k).
  { simpl in Hk. destruct Hk as [<-|[<-|[<-|[<-|[]]]]]; reflexivity. }
  assert (Hm : outcome
               = if String.eqb (Text.lstrip answer) "yes"
                 then try_except (runner t k) except_clauses asked
                 else (Return tt, asked)).
  { subst outcome. rewrite (Main_prompted t k _ env Hc) by now rewrite Hl.
    rewrite Hl, try_prompt. reflexivity. }
  split; [|split].
  - intros Hy. rewrite Hy in Hm. exact Hm.
  - intros Hn%String.eqb_neq. now rewrite Hn in Hm.
  - intros Heq. destruct (runner_acts t k asked Hk) as (e & evs & Ht).
    rewrite Heq in Ht. simpl in Ht. discriminate Ht.
Qed.

Lemma confirmation_gate_witness :
  Main terraform_ok (mkArgs "get-update" false)
    (start "/infra/staging" (directory "#environment|staging") ["  yes"])
  = try_except (runner terraform_ok "get-update") except_clauses
      (log (Input (PromptQuestion "GET-UPDATE" STAGING))
         (log (Open AFILE)
            (start "/infra/staging" (directory "#environment|staging") []))).
Proof.
  apply (proj1 (confirmation_gate terraform_ok "get-update" "/infra/staging"
                  (directory "#environment|staging") "  yes" [] STAGING
                  ltac:(simpl; auto) eq_refl)).
  reflexivity.
Defined.

(** ** The plan file *)

Ltac run_action :=
  unfold RunTerraformPlan, RunTerraformApply, RemoveTFPlanFile,
    bind, call, is_file, has_file, unlink, print, ret, raise; simpl.

Lemma RunTerraformApply_no_plan t p :
  files p !! ".tfplan" = None ->
  RunTerraformApply t p = (Raise (ValueError no_plan_file), p).
Proof. intros H. run_action. now rewrite H. Qed.

(** C4: with no [.tfplan] in the working directory, [RunTerraformApply]
    raises the [ValueError] of the missing plan file and nothing else
    happens; a run of the script for [apply] then calls nothing, deletes
    nothing and leaves the files as they were; and with the bypass flag and
    a resolved environment all it does is print that error. *)
Theorem apply_without_plan t a y wd fs typed :
  Text.lstrip a = "apply" ->
  fs !! ".tfplan" = None ->
  let p := start wd fs typed in
  let q := snd (Main t (mkArgs a y) p) in
  RunTerraformApply t p = (Raise (ValueError no_plan_file), p)
  /\ files q = fs
  /\ (forall e, In e (trace q) -> is_command e = false)
  /\ (forall env, fst (CheckEnvironment AFILE p) = Return env -> y = true ->
      Main t (mkArgs a y) p
      = (Return tt, log (Print no_plan_file) (log (Open AFILE) p))).
Proof.
  intros Ha Hfs p q.
  assert (Hrun : forall p', files p' = fs ->
            try_except (runner t "apply") except_clauses p'
            = (Return tt, log (Print no_plan_file) p')).
  { intros p' Hp'. unfold try_except. cbn [runner String.eqb Ascii.eqb Bool.eqb].
    rewrite RunTerraformApply_no_plan by now rewrite Hp'. reflexivity. }
  split; [now apply RunTerraformApply_no_plan|].
  assert (Hq : files q = fs /\ forall e, In e (trace q) -> is_command e = false).
  { subst q. destruct (CheckEnvironment_cases AFILE p) as [[env Hc]|[x Hc]].
    - assert (Hc' : fst (CheckEnvironment AFILE p) = Return env) by now rewrite Hc.
      destruct y.
      + rewrite (Main_direct t a true p env Hc') by (rewrite Ha; simpl; auto).
        rewrite Ha, Hrun by reflexivity. simpl.
        split; [reflexivity|]. intros e [<-|[<-|[]]]; reflexivity.
      + rewrite (Main_prompted t a p env Hc') by (rewrite Ha; simpl; auto).
        rewrite Ha, try_prompt. subst p.
        destruct typed as [|answer rest]; cbn [stdin start log].
        * simpl. split; [reflexivity|]. intros e [<-|[<-|[<-|[]]]]; reflexivity.
        * destruct (String.eqb (Text.lstrip answer) "yes").
          -- rewrite Hrun by reflexivity. simpl.
             split; [reflexivity|]. intros e [<-|[<-|[<-|[]]]]; reflexivity.
          -- simpl. split; [reflexivity|]. intros e [<-|[<-|[]]]; reflexivity.
    - rewrite (Main_check_raises t _ p x) by now rewrite Hc.
      simpl. split; [reflexivity|]. intros e [<-|[<-|[]]]; reflexivity. }
  destruct Hq as [Hq1 Hq2]. repeat split; trivial.
  intros env Hc ->.
  rewrite (Main_direct t a true p env Hc) by (rewrite Ha; simpl; auto).
  rewrite Ha. now apply Hrun.
Qed.

Lemma apply_without_plan_witness :
  Main terraform_ok (mkArgs " apply" true)
    (start "/infra/testing" (directory "#environment|testing") [])
  = (Return tt,
     log (Print no_plan_file)
       (log (Open AFILE) (start "/infra/testing" (directory "#environment|testing") []))).
Proof.
  apply (proj2 (proj2 (proj2
           (apply_without_plan terraform_ok " apply" true "/infra/testing"
              (directory "#environment|testing") [] eq_refl eq_refl))) TESTING);
    reflexivity.
Defined.

Lemma RunTerraformPlan_run t p status1 fs1 status2 fs2 :
  t [terraform_bin; "get"] (files p) = Some (status1, fs1) ->
  t [terraform_bin; "plan"; "-out=.tfplan"] (delete ".tfplan" fs1) = Some (status2, fs2) ->
  RunTerraformPlan t p
  = (Return tt,
     mkProcess (cwd p) fs2 (stdin p)
       (trace p
        ++ [Call [terraform_bin; "get"]]
        ++ (if has_file fs1 ".tfplan" then [Unlink ".tfplan"] else [])
        ++ [Call [terraform_bin; "plan"; "-out=.tfplan"]])).
Proof.
  unfold terraform_bin. intros Hget Hplan. run_action. rewrite Hget. simpl.
  unfold has_file. destruct (fs1 !! ".tfplan") as [n|] eqn:Hl; simpl.
  - rewrite Hl. simpl. rewrite Hplan. unfold log, with_files. simpl.
    now rewrite <- ?app_assoc.
  - rewrite delete_id in Hplan by exact Hl. rewrite Hplan.
    unfold log, with_files. simpl. now rewrite <- ?app_assoc.
Qed.


(** C7: when terraform can be started, [RunTerraformPlan] does three things
    in this order and nothing else: it calls [terraform get]; it deletes
    [.tfplan] if that file is there after the call; it calls
    [terraform plan -out=.tfplan], which therefore starts without a plan
    file. *)
Theorem RunTerraformPlan_sequence t p status1 fs1 status2 fs2 :
  t [terraform_bin; "get"] (files p) = Some (status1, fs1) ->
  t [terraform_bin; "plan"; "-out=.tfplan"] (delete ".tfplan" fs1) = Some (status2, fs2) ->
  RunTerraformPlan t p
  = (Return tt,
     mkProcess (cwd p) fs2 (stdin p)
       (trace p
        ++ [Call [terraform_bin; "get"]]
        ++ (if has_file fs1 ".tfplan" then [Unlink ".tfplan"] else [])
        ++ [Call [terraform_bin; "plan"; "-out=.tfplan"]])).
Proof. apply RunTerraformPlan_run. Qed.

Lemma RunTerraformPlan_sequence_witness :
  RunTerraformPlan terraform_ok
    (start "/infra/testing" (<[".tfplan" := Readable "stale"]> (directory "#environment|testing")) [])
  = (Return tt,
     mkProcess "/infra/testing"
       (<[".tfplan" := Readable "plan"]> (directory "#environment|testing")) []
       [Call [terraform_bin; "get"]; Unlink ".tfplan";
        Call [terraform_bin; "plan"; "-out=.tfplan"]]).
Proof.
  exact (RunTerraformPlan_sequence terraform_ok
           (start "/infra/testing"
              (<[".tfplan" := Readable "stale"]> (directory "#environment|testing")) [])
           0%Z (<[".tfplan" := Readable "stale"]> (directory "#environment|testing"))
           0%Z (<[".tfplan" := Readable "plan"]> (directory "#environment|testing"))
           eq_refl eq_refl).
Defined.

Lemma RunTerraformApply_run t p n status fs n' :
  files p !! ".tfplan" = Some n ->
  t [terraform_bin; "apply .tfplan"] (files p) = Some (status, fs) ->
  fs !! ".tfplan" = Some n' ->
  RunTerraformApply t p
  = (Return tt,
     mkProcess (cwd p) (delete ".tfplan" fs) (stdin p)
       (trace p ++ [Call [terraform_bin; "apply .tfplan"]; Unlink ".tfplan"])).
Proof.
  unfold terraform_bin. intros H1 Happly H2.
  run_action. rewrite H1. simpl. rewrite Happly. simpl. rewrite H2.
  unfold log, with_files. simpl. now rewrite <- ?app_assoc.
Qed.

(** C5: take a terraform that starts, whose plan command writes [.tfplan]
    and whose apply command leaves that file alone.  Then a plan followed
    by an apply both succeed; the apply calls terraform and deletes the file,
    once, after the call; the file is gone; and one more apply raises the
    [ValueError] of the missing plan file without calling anything. *)
Theorem plan_apply_apply t p0 status1 fs1 status2 fs2 status3 fs3 :
  t [terraform_bin; "get"] (files p0) = Some (status1, fs1) ->
  t [terraform_bin; "plan"; "-out=.tfplan"] (delete ".tfplan" fs1) = Some (status2, fs2) ->
  is_Some (fs2 !! ".tfplan") ->
  t [terraform_bin; "apply .tfplan"] fs2 = Some (status3, fs3) ->
  is_Some (fs3 !! ".tfplan") ->
  let p1 := snd (RunTerraformPlan t p0) in
  let p2 := snd (RunTerraformApply t p1) in
  fst (RunTerraformPlan t p0) = Return tt
  /\ fst (RunTerraformApply t p1) = Return tt
  /\ trace p2 = trace p1 ++ [Call [terraform_bin; "apply .tfplan"]; Unlink ".tfplan"]
  /\ files p2 = delete ".tfplan" fs3
  /\ files p2 !! ".tfplan" = None
  /\ RunTerraformApply t p2 = (Raise (ValueError no_plan_file), p2).
Proof.
  intros Hget Hplan [n2 H2] Happly [n3 H3] p1 p2.
  assert (Hp1 : RunTerraformPlan t p0 = (Return tt, p1))
    by (subst p1; now rewrite (RunTerraformPlan_run _ _ _ _ _ _ Hget Hplan)).
  assert (Hf1 : files p1 = fs2)
    by (subst p1; now rewrite (RunTerraformPlan_run _ _ _ _ _ _ Hget Hplan)).
  assert (Hp2 : RunTerraformApply t p1
                = (Return tt,
                   mkProcess (cwd p1) (delete ".tfplan" fs3) (stdin p1)
                     (trace p1 ++ [Call [terraform_bin; "apply .tfplan"];
                                   Unlink ".tfplan"]))).
  { rewrite <- Hf1 in H2, Happly. exact (RunTerraformApply_run _ _ _ _ _ _ H2 Happly H3). }
  subst p2. rewrite Hp1, Hp2. simpl.
  repeat split; trivial.
  - apply lookup_delete_eq.
  - apply RunTerraformApply_no_plan. apply lookup_delete_eq.
Qed.

Lemma plan_apply_apply_witness :
  trace (snd (RunTerraformApply terraform_ok
                (snd (RunTerraformPlan terraform_ok
                        (start "/infra/testing" (directory "#environment|testing") [])))))
  = [Call [terraform_bin; "get"]; Call [terraform_bin; "plan"; "-out=.tfplan"];
     Call [terraform_bin; "apply .tfplan"]; Unlink ".tfplan"]
  /\ fst (RunTerraformApply terraform_ok
            (snd (RunTerraformApply terraform_ok
                    (snd (RunTerraformPlan terraform_ok
                            (start "/infra/testing" (directory "#environment|testing") []))))))
     = Raise (ValueError no_plan_file).
Proof.
  pose proof (plan_apply_apply terraform_ok
                (start "/infra/testing" (directory "#environment|testing") [])
                0%Z (directory "#environment|testing")
                0%Z (<[".tfplan" := Readable "plan"]> (directory "#environment|testing"))
                0%Z (<[".tfplan" := Readable "plan"]> (directory "#environment|testing"))
                eq_refl eq_refl ltac:(eexists; reflexivity)
                eq_refl ltac:(eexists; reflexivity))
    as (_ & _ & Htrace & _ & _ & Hagain).
  split; [exact Htrace | now rewrite Hagain].
Defined.

(** C8: [RemoveTFPlanFile] never raises; with no [.tfplan] it does nothing
    at all, not even print; run a second time right after itself it finds
    no file and does nothing; and a run of the script for [removeplanfile]
    in a resolved environment with no [.tfplan] only reads the variables
    file. *)
Theorem RemoveTFPlanFile_idempotent t a y p :
  let q := snd (RemoveTFPlanFile p) in
  fst (RemoveTFPlanFile p) = Return tt
  /\ (files p !! ".tfplan" = None -> RemoveTFPlanFile p = (Return tt, p))
  /\ RemoveTFPlanFile q = (Return tt, q)
  /\ (forall env,
        Text.lstrip a = "removeplanfile" ->
        fst (CheckEnvironment AFILE p) = Return env ->
        files p !! ".tfplan" = None ->
        Main t (mkArgs a y) p = (Return tt, log (Open AFILE) p)).
Proof.
  assert (Habsent : forall p', files p' !! ".tfplan" = None ->
            RemoveTFPlanFile p' = (Return tt, p')).
  { intros p' H. run_action. now rewrite H. }
  intros q. split; [|split; [|split]].
  - run_action. destruct (files p !! ".tfplan") eqn:H; simpl; [|reflexivity].
    now rewrite H.
  - apply Habsent.
  - apply Habsent. subst q. run_action.
    destruct (files p !! ".tfplan") eqn:H; simpl; [|exact H].
    rewrite H. simpl. apply lookup_delete_eq.
  - intros env Ha Hc Hnone.
    rewrite (Main_direct t a y p env Hc) by (rewrite Ha; simpl; auto).
    rewrite Ha. unfold try_except. cbn [runner String.eqb Ascii.eqb Bool.eqb].
    now rewrite Habsent.
Qed.

Lemma RemoveTFPlanFile_idempotent_witness :
  RemoveTFPlanFile (start "/infra/testing" (directory "#environment|testing") [])
  = (Return tt, start "/infra/testing" (directory "#environment|testing") []).
Proof.
  exact (proj1 (proj2 (RemoveTFPlanFile_idempotent terraform_ok "removeplanfile" false
                         (start "/infra/testing" (directory "#environment|testing") [])))
           eq_refl).
Defined.

(** ** Failures of the environment check *)

(** C9, as stated, fails: a variables file that exists and cannot be opened
    is not reported as a file not found but as an unknown error. *)
Lemma unreadable_file_is_unknown_error :
  trace (snd (Main terraform_ok (mkArgs "validate" false)
                (start "/infra/testing" {[ AFILE := Unreadable ]} [])))
  = [Open AFILE; Print (unknown_error "[Errno 13] Permission denied: 'variables.tf'")]
  /\ ~ (exists fe,
          trace (snd (Main terraform_ok (mkArgs "validate" false)
                        (start "/infra/testing" {[ AFILE := Unreadable ]} [])))
          = [Open AFILE; Print (file_not_found fe)]).
Proof.
  split; [reflexivity|]. intros [fe H]. vm_compute in H. discriminate H.
Qed.

(** C9, amended: a variables file that does not exist makes the check raise
    [FileNotFoundError], which the script reports as a file not found; one
    that exists and cannot be opened makes it raise another [OSError], which
    the script reports as an unknown error; a file that can be read and does
    not resolve makes it raise [ValueError], whose message the script
    prints.  The three exceptions are of different classes and the three
    reports are different texts. *)
Theorem marker_failures_are_distinct t args wd fs typed :
  let p := start wd fs typed in
  let q := snd (Main t args p) in
  (fs !! AFILE = None ->
   fst (CheckEnvironment AFILE p) = Raise (FileNotFoundError AFILE)
   /\ trace q = [Open AFILE; Print (file_not_found (str (FileNotFoundError AFILE)))])
  /\ (fs !! AFILE = Some Unreadable ->
      fst (CheckEnvironment AFILE p) = Raise (PermissionError AFILE)
      /\ trace q = [Open AFILE; Print (unknown_error (str (PermissionError AFILE)))])
  /\ (forall contents,
        fs !! AFILE = Some (Readable contents) ->
        (forall env, fst (CheckEnvironment AFILE p) <> Return env) ->
        exists msg,
          fst (CheckEnvironment AFILE p) = Raise (ValueError msg)
          /\ trace q = [Open AFILE; Print msg]
          /\ (forall fe, msg <> file_not_found fe)
          /\ (forall x, msg <> unknown_error x)).
Proof.
  intros p q. split; [|split].
  - intros H.
    assert (Hc : fst (CheckEnvironment AFILE p) = Raise (FileNotFoundError AFILE))
      by (run_check; now rewrite H).
    split; [exact Hc|]. subst q. now rewrite (Main_check_raises t args p _ Hc).
  - intros H.
    assert (Hc : fst (CheckEnvironment AFILE p) = Raise (PermissionError AFILE))
      by (run_check; now rewrite H).
    split; [exact Hc|]. subst q. now rewrite (Main_check_raises t args p _ Hc).
  - intros contents H Hno.
    assert (Hc : fst (CheckEnvironment AFILE p) = Raise (ValueError invalid_format)
                 \/ fst (CheckEnvironment AFILE p) = Raise (ValueError invalid_environment)).
    { revert Hno. run_check. rewrite H. simpl.
      repeat (match goal with
              | |- context [if ?b then _ else _] => destruct b
              end); simpl; intros Hno; auto; exfalso; eapply Hno; reflexivity. }
    destruct Hc as [Hc|Hc]; eexists; (split; [exact Hc|]);
      (split; [subst q; now rewrite (Main_check_raises t args p _ Hc)|]);
      split; intros ? Heq; vm_compute in Heq; discriminate Heq.
Qed.

Lemma marker_failures_are_distinct_witness :
  trace (snd (Main terraform_ok (mkArgs "plan" true)
                (start "/infra/testing" (delete AFILE (directory "")) [])))
  = [Open AFILE; Print (file_not_found "[Errno 2] No such file or directory: 'variables.tf'")].
Proof.
  exact (proj2 (proj1 (marker_failures_are_distinct terraform_ok (mkArgs "plan" true)
                         "/infra/testing" (delete AFILE (directory "")) [])
                  eq_refl)).
Defined.

(** ** The action word *)

Lemma action_table_runner t k run :
  In (k, run) (action_table t) ->
  In k keywords /\ Text.lstrip k = k /\ runner t k = run.
Proof.
  unfold action_table, keywords, confirm_required. simpl.
  intros H. repeat (destruct H as [[= <- <-]|H]; [auto 10|]). destruct H.
Qed.

(** The function of a keyword, under the [except] clauses, either leaves
    the trace as it is or starts with something other than the list of the
    supported actions. *)
Lemma action_first_event t k run q :
  In (k, run) (action_table t) ->
  trace (snd (try_except run except_clauses q)) = trace q
  \/ exists e rest,
       trace (snd (try_except run except_clauses q)) = trace q ++ e :: rest
       /\ e <> Print unsupported_action.
Proof.
  unfold action_table. simpl. intros H.
  repeat (destruct H as [[= <- <-]|H];
          [unfold try_except, RunTerraformPlan, RunTerraformApply, RunTerraformDestroy,
             RunTerraformGetUpdate, RunTerraformValidate, RemoveTFPlanFile,
             bind, call, is_file, has_file, unlink, print, ret, raise; simpl;
           repeat case_match; simplify_eq; simpl; unfold log; simpl;
           rewrite <- ?app_assoc; simpl;
           first [ left; reflexivity
                 | right; eexists _, _; split; [reflexivity | discriminate] ]|]).
  destruct H.
Qed.

Lemma trace_not_unsupported (l : list event) q :
  trace q = l
  \/ (exists e rest, trace q = l ++ e :: rest /\ e <> Print unsupported_action) ->
  trace q <> l ++ [Print unsupported_action].
Proof.
  intros [H|(e & rest & H & He)] Heq; rewrite H in Heq.
  - rewrite <- (app_nil_r l) in Heq at 1. apply app_inv_head in Heq. discriminate Heq.
  - apply app_inv_head in Heq. injection Heq as -> _. now apply He.
Qed.

(** C10: blanks before the action word are dropped.  A keyword after any
    run of whitespace is the keyword: the run is the run for the keyword
    alone, and in a resolved environment it is the function of that keyword
    that runs under the [except] clauses (behind the prompt for the four
    confirm-required actions without the bypass flag), never the answer to
    an unsupported word.  Blanks after a keyword are kept: the word is then
    none of the six, and in a resolved environment the script only prints
    the list of the supported actions. *)
Theorem action_blanks t k run ws y p :
  In (k, run) (action_table t) ->
  all_space ws = true ->
  Text.lstrip (ws +:+ k) = k
  /\ Main t (mkArgs (ws +:+ k) y) p = Main t (mkArgs k y) p
  /\ (forall env,
        fst (CheckEnvironment AFILE p) = Return env ->
        Main t (mkArgs (ws +:+ k) y) p
        = try_except
            (if confirms k && negb y
             then answer <- input (PromptQuestion (Text.upper k) env) ;;
                  if String.eqb (Text.lstrip answer) "yes" then run else ret tt
             else run)
            except_clauses (log (Open AFILE) p)
        /\ Main t (mkArgs (ws +:+ k) y) p
           <> (Return tt, log (Print unsupported_action) (log (Open AFILE) p)))
  /\ (ws <> "" ->
      Text.lstrip (k +:+ ws) = k +:+ ws
      /\ ~ In (k +:+ ws) keywords
      /\ forall env,
           fst (CheckEnvironment AFILE p) = Return env ->
           Main t (mkArgs (k +:+ ws) y) p
           = (Return tt, log (Print unsupported_action) (log (Open AFILE) p))).
Proof.
  intros Htab Hws.
  destruct (action_table_runner t k run Htab) as (Hk & Hl & Hrun).
  assert (Hlw : Text.lstrip (ws +:+ k) = k) by now rewrite TextFacts.lstrip_app.
  split; [exact Hlw|]. split; [|split].
  - unfold Main. cbn [action yes]. now rewrite TextFacts.lstrip_app.
  - intros env Hc.
    assert (Heq : Main t (mkArgs (ws +:+ k) y) p
                  = try_except
                      (if confirms k && negb y
                       then answer <- input (PromptQuestion (Text.upper k) env) ;;
                            if String.eqb (Text.lstrip answer) "yes" then run else ret tt
                       else run)
                      except_clauses (log (Open AFILE) p)).
    { destruct (confirms k) eqn:Hconf; simpl.
      - assert (Hin : In k confirm_required).
        { unfold confirms in Hconf. apply existsb_exists in Hconf.
          destruct Hconf as (x & Hx & ->%String.eqb_eq). exact Hx. }
        destruct y; simpl.
        + rewrite (Main_direct t _ true p env Hc) by (rewrite Hlw; auto).
          now rewrite Hlw, Hrun.
        + rewrite (Main_prompted t _ p env Hc) by now rewrite Hlw.
          now rewrite Hlw, Hrun.
      - assert (Hsafe : In k ["validate"; "removeplanfile"]).
        { unfold keywords in Hk. apply in_app_or in Hk. destruct Hk as [Hk|Hk]; [|exact Hk].
          assert (confirms k = true); [|congruence].
          unfold confirms. apply existsb_exists. exists k.
          split; [exact Hk | apply String.eqb_refl]. }
        rewrite (Main_direct t _ y p env Hc) by (rewrite Hlw; auto).
        now rewrite Hlw, Hrun. }
    split; [exact Heq|]. rewrite Heq. intros Hbad.
    apply (f_equal (fun r => trace (snd r))) in Hbad. revert Hbad.
    change (trace (snd (Return tt, log (Print unsupported_action) (log (Open AFILE) p))))
      with ((trace p ++ [Open AFILE]) ++ [Print unsupported_action]).
    apply trace_not_unsupported.
    destruct (confirms k && negb y).
    + rewrite try_prompt. cbn [stdin log].
      destruct (stdin p) as [|answer rest].
      * rewrite except_clauses_report. right. eexists _, _.
        split; [simpl; rewrite <- app_assoc; reflexivity | discriminate].
      * destruct (String.eqb (Text.lstrip answer) "yes").
        -- right.
           match goal with
           | |- context [try_except run except_clauses ?q0] =>
               destruct (action_first_event t k run q0 Htab) as [H|(e & more & H & _)];
                 rewrite H
           end; eexists _, _;
             (split; [simpl; rewrite <- ?app_assoc; reflexivity | discriminate]).
        -- right. eexists _, _.
           split; [simpl; reflexivity | discriminate].
    + exact (action_first_event t k run (log (Open AFILE) p) Htab).
  - intros Hne. destruct ws as [|c ws]; [congruence|clear Hne].
    assert (Hl' : Text.lstrip (k +:+ String c ws) = k +:+ String c ws).
    { unfold keywords in Hk. simpl in Hk.
      repeat (destruct Hk as [<-|Hk]; [reflexivity|]). destruct Hk. }
    assert (Hnot : ~ In (k +:+ String c ws) keywords).
    { unfold keywords in *. simpl in Hk.
      repeat (destruct Hk as [<-|Hk]; [simpl; intuition discriminate|]). destruct Hk. }
    repeat split; trivial.
    intros env Hc. apply (Main_unsupported t _ y p env Hc). now rewrite Hl'.
Qed.

Lemma action_blanks_witness :
  (Main terraform_ok (mkArgs "  plan" true)
     (start "/infra/testing" (directory "#environment|testing") [])
   = try_except (RunTerraformPlan terraform_ok) except_clauses
       (log (Open AFILE) (start "/infra/testing" (directory "#environment|testing") []))
   /\ Main terraform_ok (mkArgs "  plan" true)
        (start "/infra/testing" (directory "#environment|testing") [])
      <> (Return tt,
          log (Print unsupported_action)
            (log (Open AFILE)
               (start "/infra/testing" (directory "#environment|testing") []))))
  /\ Main terraform_ok (mkArgs "plan " true)
       (start "/infra/testing" (directory "#environment|testing") [])
     = (Return tt,
        log (Print unsupported_action)
          (log (Open AFILE) (start "/infra/testing" (directory "#environment|testing") []))).
Proof.
  split.
  - exact (proj1 (proj2 (proj2
             (action_blanks terraform_ok "plan" (RunTerraformPlan terraform_ok) "  " true
                (start "/infra/testing" (directory "#environment|testing") [])
                ltac:(simpl; auto) eq_refl))) TESTING eq_refl).
  - refine (proj2 (proj2 (proj2 (proj2 (proj2
              (action_blanks terraform_ok "plan" (RunTerraformPlan terraform_ok) " " true
                 (start "/infra/testing" (directory "#environment|testing") [])
                 ltac:(simpl; auto) eq_refl))) _)) TESTING eq_refl).
    discriminate.
Defined.

(** * Further properties of the script *)

(** ** What a computation adds to the trace, and what it raises *)

Lemma follows_refl P p : follows P p p.
Proof. split; [reflexivity|]. exists []. now rewrite app_nil_r. Qed.

Lemma follows_trans P p q r : follows P p q -> follows P q r -> follows P p r.
Proof.
  intros [Hc1 (e1 & H1 & F1)] [Hc2 (e2 & H2 & F2)]. split; [congruence|].
  exists (e1 ++ e2). split; [now rewrite H2, H1, app_assoc | now apply Forall_app].
Qed.

Lemma follows_log (P : event -> Prop) e p : P e -> follows P p (log e p).
Proof. intros He. split; [reflexivity|]. exists [e]. split; [reflexivity | now constructor]. Qed.

Lemma follows_weaken (P Q : event -> Prop) p q :
  (forall e, P e -> Q e) -> follows P p q -> follows Q p q.
Proof.
  intros HPQ [Hc (evs & Ht & Hf)]. split; [exact Hc|]. exists evs. split; [exact Ht|].
  eapply Forall_impl; [exact Hf | exact HPQ].
Qed.

Section Acts.

Variable P : event -> Prop.
Variable E : exn -> Prop.

Lemma acts_ret {A} (a : A) : acts P E (ret a).
Proof. intros p. split; [apply follows_refl|]. split; [reflexivity | discriminate]. Qed.

Lemma acts_raise {A} e : E e -> acts P E (@raise A e).
Proof.
  intros He p. split; [apply follows_refl|]. split; [reflexivity|].
  now intros ? [= <-].
Qed.

Lemma acts_bind {A B} (m : M A) (k : A -> M B) :
  acts P E m -> (forall a, acts P E (k a)) -> acts P E (bind m k).
Proof.
  intros Hm Hk p. unfold bind. destruct (Hm p) as (Hf & Hs & He).
  destruct (m p) as [[a|e] q]; simpl in *.
  - destruct (Hk a q) as (Hf' & Hs' & He').
    split; [eapply follows_trans; eassumption|]. split; [congruence | exact He'].
  - split; [exact Hf|]. split; [exact Hs|]. intros ? [= <-]. now apply He.
Qed.

Lemma acts_if {A} (b : bool) (m1 m2 : M A) :
  acts P E m1 -> acts P E m2 -> acts P E (if b then m1 else m2).
Proof. now destruct b. Qed.

Lemma acts_print text : P (Print text) -> acts P E (print text).
Proof.
  intros H p. split; [now apply follows_log|]. split; [reflexivity | discriminate].
Qed.

Lemma acts_is_file path : acts P E (is_file path).
Proof. intros p. split; [apply follows_refl|]. split; [reflexivity | discriminate]. Qed.

Lemma acts_unlink path :
  P (Unlink path) -> E (FileNotFoundError path) -> acts P E (unlink path).
Proof.
  intros HP HE p. unfold unlink. destruct (files p !! path); simpl.
  - split; [now apply (follows_log P _ (with_files _ p))|].
    split; [reflexivity | discriminate].
  - split; [apply follows_refl|]. split; [reflexivity|]. now intros ? [= <-].
Qed.

Lemma acts_call t argv :
  P (Call argv) -> E (FileNotFoundError (hd "" argv)) -> acts P E (call t argv).
Proof.
  intros HP HE p. unfold call. destruct (t argv (files p)) as [[status fs]|]; simpl.
  - split; [now apply (follows_log P _ p)|]. split; [reflexivity | discriminate].
  - split; [now apply (follows_log P _ p)|]. split; [reflexivity|]. now intros ? [= <-].
Qed.

End Acts.

(** Handling the exceptions of a computation. *)
Lemma acts_try P E E' {A} (m : M A) (h : exn -> M A) :
  acts P E m -> (forall e, E e -> acts P E' (h e)) -> acts P E' (try_except m h).
Proof.
  intros Hm Hh p. unfold try_except. destruct (Hm p) as (Hf & Hs & He).
  destruct (m p) as [[a|e] q]; simpl in *.
  - split; [exact Hf|]. split; [exact Hs | discriminate].
  - destruct (Hh e (He e eq_refl) q) as (Hf' & Hs' & He').
    split; [eapply follows_trans; eassumption|]. split; [congruence | exact He'].
Qed.

(** ** The environment check, continued *)

Lemma CheckEnvironment_raises afile p e :
  fst (CheckEnvironment afile p) = Raise e -> check_exn afile e.
Proof.
  unfold check_exn. run_check.
  destruct (files p !! afile) as [[contents|]|]; simpl;
    try (intros [= <-]; now auto).
  repeat (match goal with
          | |- context [if ?b then _ else _] => destruct b
          end); simpl; intros [= <-]; auto.
Qed.

Lemma CheckEnvironment_valid afile p env :
  fst (CheckEnvironment afile p) = Return env -> env <> INVALID.
Proof.
  intros (? & ? & ? & _ & _ & _ & Hin)%CheckEnvironment_Return ->.
  unfold known_environments in Hin; simpl in Hin. intuition congruence.
Qed.

(** ** [Main] in one equation *)

Lemma confirms_In k : confirms k = true <-> In k confirm_required.
Proof.
  unfold confirms. rewrite existsb_exists. split.
  - intros (x & Hx & ->%String.eqb_eq). exact Hx.
  - intros H. exists k. split; [exact H | apply String.eqb_refl].
Qed.

Lemma runner_unsupported t k : ~ In k keywords -> runner t k = print unsupported_action.
Proof.
  intros Hk. unfold keywords, confirm_required in Hk. simpl in Hk. unfold runner.
  repeat (match goal with
          | |- context [String.eqb ?a ?b] =>
              destruct (String.eqb_spec a b); [exfalso; apply Hk; auto 10|]
          end).
  reflexivity.
Qed.

(** Once the check has answered, [Main] prompts for the four actions unless
    told not to, and runs the function of the action word under the
    [except] clauses. *)
Lemma Main_resolved t a y p env :
  fst (CheckEnvironment AFILE p) = Return env ->
  Main t (mkArgs a y) p
  = try_except
      (if confirms (Text.lstrip a) && negb y
       then answer <- input (PromptQuestion (Text.upper (Text.lstrip a)) env) ;;
            if String.eqb (Text.lstrip answer) "yes" then runner t (Text.lstrip a)
            else ret tt
       else runner t (Text.lstrip a))
      except_clauses (log (Open AFILE) p).
Proof.
  intros Hc.
  destruct (confirms (Text.lstrip a)) eqn:Hk; simpl.
  - apply confirms_In in Hk. destruct y; simpl.
    + apply (Main_direct t a true p env Hc). auto.
    + apply (Main_prompted t a p env Hc Hk).
  - assert (Hn : ~ In (Text.lstrip a) confirm_required)
      by (rewrite <- confirms_In; congruence).
    destruct (in_dec string_dec (Text.lstrip a) ["validate"; "removeplanfile"]) as [Hs|Hs].
    + apply (Main_direct t a y p env Hc). auto.
    + assert (Hno : ~ In (Text.lstrip a) keywords).
      { unfold keywords. rewrite in_app_iff. tauto. }
      rewrite (Main_unsupported t a y p env Hc Hno), (runner_unsupported t _ Hno).
      reflexivity.
Qed.

(** ** The events and exceptions of the script *)

Ltac acts_side :=
  match goal with
  | |- runner_event _ => split; [acts_side | reflexivity]
  | |- script_event (Call _) =>
      eexists; split; [reflexivity | simpl; auto 10]
  | |- script_event (Print _) => unfold script_event, messages; simpl; auto 12
  | |- script_event _ => reflexivity
  | |- runner_exn _ => unfold runner_exn, terraform_bin; simpl; auto
  end.

Ltac acts_steps :=
  repeat first
    [ apply acts_bind; [|intros ?]
    | apply acts_if
    | apply acts_ret
    | apply acts_is_file
    | apply acts_call; [acts_side | acts_side]
    | apply acts_unlink; [acts_side | acts_side]
    | apply acts_print; acts_side
    | apply acts_raise; acts_side ].

Lemma acts_runner t k : acts runner_event runner_exn (runner t k).
Proof.
  unfold runner, RunTerraformPlan, RunTerraformApply, RunTerraformDestroy,
    RunTerraformGetUpdate, RunTerraformValidate, RemoveTFPlanFile.
  acts_steps.
Qed.

Lemma report_in_messages e :
  runner_exn e \/ check_exn AFILE e \/ e = EOFError -> In (report e) messages.
Proof.
  unfold runner_exn, check_exn, messages.
  intros [[-> | [-> | ->]] | [[-> | [-> | [-> | ->]]] | ->]]; simpl; auto 12.
Qed.

Lemma acts_except_clauses e :
  runner_exn e \/ check_exn AFILE e \/ e = EOFError ->
  acts runner_event (fun _ => False) (except_clauses e).
Proof.
  intros He p. rewrite except_clauses_report. simpl.
  split; [apply follows_log; split; [exact (report_in_messages e He) | reflexivity]|].
  split; [reflexivity | discriminate].
Qed.

(** The function of an action word under the [except] clauses: it returns,
    leaves the standard input alone and adds no prompt. *)
Lemma runner_quiet t k q :
  fst (try_except (runner t k) except_clauses q) = Return tt
  /\ follows runner_event q (snd (try_except (runner t k) except_clauses q))
  /\ stdin (snd (try_except (runner t k) except_clauses q)) = stdin q.
Proof.
  destruct (acts_try runner_event runner_exn (fun _ => False) (runner t k) except_clauses
              (acts_runner t k) (fun e He => acts_except_clauses e (or_introl He)) q)
    as (Hf & Hs & He).
  split; [|split; assumption].
  destruct (try_except (runner t k) except_clauses q) as [[[]|e] q']; simpl in *;
    [reflexivity | destruct (He e eq_refl)].
Qed.

Lemma runner_event_script e : runner_event e -> script_event e.
Proof. now intros [H _]. Qed.

(** The shape of every run: it never raises, it stays in its directory,
    its events are those of [script_event], and it takes a line from the
    standard input only to confirm. *)
Lemma Main_shape t a y p :
  fst (Main t (mkArgs a y) p) = Return tt
  /\ follows script_event p (snd (Main t (mkArgs a y) p))
  /\ (stdin (snd (Main t (mkArgs a y) p)) = stdin p
      \/ (y = false /\ In (Text.lstrip a) confirm_required
          /\ (exists env, fst (CheckEnvironment AFILE p) = Return env)
          /\ stdin (snd (Main t (mkArgs a y) p)) = tl (stdin p))).
Proof.
  assert (Hopen : follows script_event p (log (Open AFILE) p))
    by now apply follows_log.
  assert (Hrun : forall k q,
            fst (try_except (runner t k) except_clauses q) = Return tt
            /\ follows script_event q (snd (try_except (runner t k) except_clauses q))
            /\ stdin (snd (try_except (runner t k) except_clauses q)) = stdin q).
  { intros k q. destruct (runner_quiet t k q) as (Hr & Hf & Hs).
    split; [exact Hr|]. split; [|exact Hs].
    exact (follows_weaken _ _ _ _ runner_event_script Hf). }
  destruct (CheckEnvironment_cases AFILE p) as [[env Hc]|[x Hc]].
  - assert (Hc' : fst (CheckEnvironment AFILE p) = Return env) by now rewrite Hc.
    rewrite (Main_resolved t a y p env Hc').
    destruct (confirms (Text.lstrip a) && negb y) eqn:Hb.
    + apply andb_prop in Hb as [Hk%confirms_In Hy%negb_true_iff]. subst y.
      assert (Hin : script_event (Input (PromptQuestion (Text.upper (Text.lstrip a)) env))).
      { exists (Text.lstrip a), env. split; [exact Hk|].
        split; [exact (CheckEnvironment_valid _ _ _ Hc') | reflexivity]. }
      rewrite try_prompt. cbn [stdin log].
      set (asked := log (Input (PromptQuestion (Text.upper (Text.lstrip a)) env))
                      (log (Open AFILE) p)).
      assert (Hasked : follows script_event p asked).
      { eapply follows_trans; [exact Hopen | now apply follows_log]. }
      destruct (stdin p) as [|answer rest] eqn:Hin0.
      * rewrite except_clauses_report. simpl.
        split; [reflexivity|]. split.
        -- eapply follows_trans; [exact Hasked|]. apply follows_log.
           apply (report_in_messages EOFError). auto.
        -- right. rewrite Hin0. eauto.
      * destruct (String.eqb (Text.lstrip answer) "yes").
        -- destruct (Hrun (Text.lstrip a) (with_stdin rest asked)) as (Hr & Hf & Hs).
           split; [exact Hr|]. split.
           ++ eapply follows_trans; [exact Hasked|].
              destruct Hf as [Hcw (evs & Ht & HF)]. split; [exact Hcw|].
              exists evs. split; [exact Ht | exact HF].
           ++ right. rewrite Hs. simpl. eauto.
        -- simpl. split; [reflexivity|]. split.
           ++ destruct Hasked as [Hcw (evs & Ht & HF)]. split; [exact Hcw|].
              exists evs. split; [exact Ht | exact HF].
           ++ right. eauto.
    + destruct (Hrun (Text.lstrip a) (log (Open AFILE) p)) as (Hr & Hf & Hs).
      split; [exact Hr|]. split.
      * eapply follows_trans; [exact Hopen | exact Hf].
      * left. rewrite Hs. reflexivity.
  - assert (Hc' : fst (CheckEnvironment AFILE p) = Raise x) by now rewrite Hc.
    rewrite (Main_check_raises t _ p x Hc'). simpl.
    split; [reflexivity|]. split; [|now left].
    eapply follows_trans; [exact Hopen|]. apply follows_log.
    apply (report_in_messages x). right. left.
    exact (CheckEnvironment_raises AFILE p x Hc').
Qed.

(** ** Runs of [Main] *)

(** X2: what a run reaches outside itself is fixed: the only file it opens
    is the variables file, the only file it deletes is [.tfplan], the only
    program it calls is the terraform binary of [TERRAFORMPATH], with one
    of six command lines, and the only question it asks is the one
    [PromptQuestion] builds for one of the four confirm-required actions and
    a valid environment.  What it prints is left open here. *)
Theorem Main_events t args wd fs typed :
  Forall outward_event (trace (snd (Main t args (start wd fs typed)))).
Proof.
  destruct args as [a y].
  destruct (Main_shape t a y (start wd fs typed)) as (_ & [_ (evs & Ht & HF)] & _).
  rewrite Ht. simpl. eapply Forall_impl; [exact HF|].
  intros [] He; simpl; trivial.
Qed.

Lemma DisplayAction_not_a_message a env : ~ In (DisplayAction a env) messages.
Proof.
  unfold messages, DisplayAction. intros H. simpl in H.
  repeat (destruct H as [H|H]; [destruct env; discriminate H|]). exact H.
Qed.

(** X3: the message [DisplayAction] builds is never shown: no run prints
    it, for any action text and any environment. *)
Theorem DisplayAction_never_printed t args wd fs typed :
  Forall (fun e => forall a env, e <> Print (DisplayAction a env))
    (trace (snd (Main t args (start wd fs typed)))).
Proof.
  destruct args as [x y].
  destruct (Main_shape t x y (start wd fs typed)) as (_ & [_ (evs & Ht & HF)] & _).
  rewrite Ht. simpl. eapply Forall_impl; [exact HF|].
  intros e He a env ->. exact (DisplayAction_not_a_message a env He).
Qed.



(** X5: [validate] and [removeplanfile] do not look at the bypass flag: the
    run is the same with it and without it. *)
Theorem safe_actions_ignore_flag t a y1 y2 p :
  In (Text.lstrip a) ["validate"; "removeplanfile"] ->
  Main t (mkArgs a y1) p = Main t (mkArgs a y2) p.
Proof.
  intros Hk. destruct (CheckEnvironment_cases AFILE p) as [[env Hc]|[x Hc]].
  - assert (Hc' : fst (CheckEnvironment AFILE p) = Return env) by now rewrite Hc.
    now rewrite !(Main_direct t a _ p env Hc') by auto.
  - assert (Hc' : fst (CheckEnvironment AFILE p) = Raise x) by now rewrite Hc.
    now rewrite !(Main_check_raises t _ p x Hc').
Qed.

Lemma safe_actions_ignore_flag_witness :
  Main terraform_ok (mkArgs "validate" true)
    (start "/infra/testing" (directory "#environment|testing") ["no"])
  = Main terraform_ok (mkArgs "validate" false)
      (start "/infra/testing" (directory "#environment|testing") ["no"]).
Proof.
  exact (safe_actions_ignore_flag terraform_ok "validate" true false
           (start "/infra/testing" (directory "#environment|testing") ["no"])
           ltac:(simpl; auto)).
Defined.

(** X6: when the standard input is closed at the prompt, the run ends
    there: [input] raises [EOFError], the catch-all clause prints it as an
    unknown error, and nothing is called, deleted or changed. *)
Theorem end_of_input_at_prompt t a wd fs env :
  In (Text.lstrip a) confirm_required ->
  fst (CheckEnvironment AFILE (start wd fs [])) = Return env ->
  Main t (mkArgs a false) (start wd fs [])
  = (Return tt,
     log (Print (unknown_error "EOF when reading a line"))
       (log (Input (PromptQuestion (Text.upper (Text.lstrip a)) env))
          (log (Open AFILE) (start wd fs [])))).
Proof.
  intros Hk Hc. rewrite (Main_prompted t a _ env Hc Hk), try_prompt. reflexivity.
Qed.

Lemma end_of_input_at_prompt_witness :
  Main terraform_ok (mkArgs "destroy" false)
    (start "/infra/production" (directory "#environment|production") [])
  = (Return tt,
     log (Print (unknown_error "EOF when reading a line"))
       (log (Input (PromptQuestion "DESTROY" PRODUCTION))
          (log (Open AFILE)
             (start "/infra/production" (directory "#environment|production") [])))).
Proof.
  exact (end_of_input_at_prompt terraform_ok "destroy" "/infra/production"
           (directory "#environment|production") PRODUCTION
           ltac:(simpl; auto) eq_refl).
Defined.

(** X7: an action word that, leading whitespace aside, is none of the six
    keywords runs nothing: no call, no deletion, no prompt, the files and
    the standard input as they were; in a resolved environment the run
    prints the list of the supported actions and that is all. *)
Theorem unsupported_word_runs_nothing t a y wd fs typed :
  ~ In (Text.lstrip a) keywords ->
  let p := start wd fs typed in
  let q := snd (Main t (mkArgs a y) p) in
  files q = fs /\ stdin q = typed
  /\ (forall e, In e (trace q) -> is_command e = false /\ is_input e = false)
  /\ (forall env, fst (CheckEnvironment AFILE p) = Return env ->
      trace q = [Open AFILE; Print unsupported_action]).
Proof.
  intros Hk p q. subst q.
  destruct (CheckEnvironment_cases AFILE p) as [[env Hc]|[x Hc]].
  - assert (Hc' : fst (CheckEnvironment AFILE p) = Return env) by now rewrite Hc.
    rewrite (Main_unsupported t a y p env Hc' Hk). simpl.
    repeat split; trivial; destruct H as [<-|[<-|[]]]; reflexivity.
  - assert (Hc' : fst (CheckEnvironment AFILE p) = Raise x) by now rewrite Hc.
    rewrite (Main_check_raises t _ p x Hc'). simpl.
    repeat split; trivial; try (destruct H as [<-|[<-|[]]]; reflexivity).
    intros env He. rewrite Hc' in He. discriminate He.
Qed.

Lemma unsupported_word_runs_nothing_witness :
  trace (snd (Main terraform_ok (mkArgs "PLAN" true)
                (start "/infra/testing" (directory "#environment|testing") [])))
  = [Open AFILE; Print unsupported_action].
Proof.
  refine (proj2 (proj2 (proj2
            (unsupported_word_runs_nothing terraform_ok "PLAN" true "/infra/testing"
               (directory "#environment|testing") [] _))) TESTING eq_refl).
  unfold keywords, confirm_required. simpl. intuition discriminate.
Defined.

(** ** What terraform answers *)

Lemma bind_ext {A B} (m : M A) (k1 k2 : A -> M B) p :
  (forall a q, k1 a q = k2 a q) -> bind m k1 p = bind m k2 p.
Proof. intros H. unfold bind. destruct (m p) as [[a|e] q]; [apply H | reflexivity]. Qed.

Lemma try_except_ext {A} (m1 m2 : M A) h p :
  (forall q, m1 q = m2 q) -> try_except m1 h p = try_except m2 h p.
Proof. intros H. unfold try_except. now rewrite H. Qed.

Lemma call_same t1 t2 argv {B} (k1 k2 : M B) p :
  same_files t1 t2 -> (forall q, k1 q = k2 q) ->
  bind (call t1 argv) (fun _ => k1) p = bind (call t2 argv) (fun _ => k2) p.
Proof.
  intros Hsame Hk. unfold bind, call. specialize (Hsame argv (files p)).
  destruct (t1 argv (files p)) as [[s1 f1]|], (t2 argv (files p)) as [[s2 f2]|];
    simpl in *; try discriminate Hsame; [|reflexivity].
  injection Hsame as ->. apply Hk.
Qed.

Lemma runner_same t1 t2 k p : same_files t1 t2 -> runner t1 k p = runner t2 k p.
Proof.
  intros Hsame. unfold runner.
  repeat (match goal with
          | |- context [String.eqb ?a ?b] => destruct (String.eqb a b)
          end); try reflexivity.
  - unfold RunTerraformPlan. apply call_same; [exact Hsame|]. intros q.
    apply bind_ext. intros present q1. apply bind_ext. intros _ q2.
    now apply call_same.
  - unfold RunTerraformApply. apply bind_ext. intros [] q; [|reflexivity].
    now apply call_same.
  - unfold RunTerraformDestroy. now apply call_same.
  - unfold RunTerraformGetUpdate. now apply call_same.
  - unfold RunTerraformValidate. now apply call_same.
Qed.

(** X8: the exit status of terraform is never looked at: with two
    terraforms that start on the same commands and leave the same files
    behind, one exiting with success and the other with a failure, the run
    is the same, message for message and deletion for deletion. *)
Theorem exit_status_ignored t1 t2 args p :
  same_files t1 t2 -> Main t1 args p = Main t2 args p.
Proof.
  intros Hsame. destruct args as [a y].
  destruct (CheckEnvironment_cases AFILE p) as [[env Hc]|[x Hc]].
  - assert (Hc' : fst (CheckEnvironment AFILE p) = Return env) by now rewrite Hc.
    rewrite !(Main_resolved _ a y p env Hc'). apply try_except_ext. intros q.
    destruct (confirms (Text.lstrip a) && negb y); [|now apply runner_same].
    apply bind_ext. intros answer q1.
    destruct (String.eqb (Text.lstrip answer) "yes"); [now apply runner_same | reflexivity].
  - assert (Hc' : fst (CheckEnvironment AFILE p) = Raise x) by now rewrite Hc.
    now rewrite !(Main_check_raises _ _ p x Hc').
Qed.

Lemma exit_status_ignored_witness :
  Main terraform_ok (mkArgs "apply" true)
    (start "/infra/testing"
       (<[".tfplan" := Readable "plan"]> (directory "#environment|testing")) [])
  = Main terraform_failing (mkArgs "apply" true)
      (start "/infra/testing"
         (<[".tfplan" := Readable "plan"]> (directory "#environment|testing")) []).
Proof.
  apply (exit_status_ignored terraform_ok terraform_failing).
  intros argv fs. unfold terraform_failing.
  destruct (terraform_ok argv fs) as [[status fs']|]; reflexivity.
Defined.

(** X9: if terraform removes [.tfplan] itself while it applies it, the
    deletion that follows the call finds no file: [RunTerraformApply] raises
    [FileNotFoundError] for [.tfplan], after the call and with the files as
    terraform left them. *)
Theorem apply_finds_plan_gone t p n status fs' :
  files p !! ".tfplan" = Some n ->
  t [terraform_bin; "apply .tfplan"] (files p) = Some (status, fs') ->
  fs' !! ".tfplan" = None ->
  RunTerraformApply t p
  = (Raise (FileNotFoundError ".tfplan"),
     with_files fs' (log (Call [terraform_bin; "apply .tfplan"]) p)).
Proof.
  unfold terraform_bin. intros H1 Happly H2.
  run_action. rewrite H1. simpl. rewrite Happly. simpl. now rewrite H2.
Qed.

Lemma apply_finds_plan_gone_witness :
  RunTerraformApply terraform_consuming
    (start "/infra/testing"
       (<[".tfplan" := Readable "plan"]> (directory "#environment|testing")) [])
  = (Raise (FileNotFoundError ".tfplan"),
     with_files (directory "#environment|testing")
       (log (Call [terraform_bin; "apply .tfplan"])
          (start "/infra/testing"
             (<[".tfplan" := Readable "plan"]> (directory "#environment|testing")) []))).
Proof.
  exact (apply_finds_plan_gone terraform_consuming
           (start "/infra/testing"
              (<[".tfplan" := Readable "plan"]> (directory "#environment|testing")) [])
           (Readable "plan") 0%Z (directory "#environment|testing")
           eq_refl eq_refl eq_refl).
Defined.

Lemma runner_not_started t k q :
  (forall argv fs, t argv fs = None) ->
  k <> "removeplanfile" ->
  exists evs,
    try_except (runner t k) except_clauses q
    = (Return tt, mkProcess (cwd q) (files q) (stdin q) (trace q ++ evs))
    /\ ((exists m, evs = [Print m])
        \/ exists argv,
             evs = [Call argv;
                    Print (file_not_found (str (FileNotFoundError terraform_bin)))]).
Proof.
  intros Hdead Hk. unfold runner.
  repeat (match goal with
          | |- context [String.eqb ?a ?b] => destruct (String.eqb_spec a b)
          end); try contradiction;
    unfold try_except, RunTerraformPlan, RunTerraformApply, RunTerraformDestroy,
      RunTerraformGetUpdate, RunTerraformValidate, bind, call, is_file, has_file,
      unlink, print, ret, raise; simpl;
    try (destruct (files q !! ".tfplan"); simpl);
    rewrite ?Hdead; simpl; unfold print, log; simpl; rewrite <- ?app_assoc; simpl;
    (eexists; split; [reflexivity|]);
    first [ right; eexists; reflexivity | left; eexists; reflexivity ].
Qed.

Lemma not_started_shape (front evs : list event) :
  (forall e, In e front -> is_command e = false) ->
  (evs = [] \/ (exists m, evs = [Print m])
   \/ exists argv, evs = [Call argv;
                          Print (file_not_found (str (FileNotFoundError terraform_bin)))]) ->
  (forall path, ~ In (Unlink path) (front ++ evs))
  /\ (forall argv, In (Call argv) (front ++ evs) ->
      exists front',
        front ++ evs
        = front' ++ [Call argv;
                     Print (file_not_found (str (FileNotFoundError terraform_bin)))]).
Proof.
  intros Hfront Hevs. split.
  - intros path [H|H]%in_app_or.
    + apply Hfront in H. discriminate H.
    + destruct Hevs as [->|[[m ->]|[argv ->]]]; simpl in H; intuition discriminate.
  - intros argv [H|H]%in_app_or.
    + apply Hfront in H. discriminate H.
    + destruct Hevs as [->|[[m ->]|[argv' ->]]]; simpl in H.
      * destruct H.
      * intuition discriminate.
      * destruct H as [[= ->]|[H|[]]]; [|discriminate H]. now exists front.
Qed.

(** X10: when there is no terraform binary at the path of the script, so
    that every call raises [FileNotFoundError], no file is touched: for every
    action but [removeplanfile] the files are left as they were and nothing
    is deleted, not even a stale plan before a plan nor the plan after an
    apply; and a call that was tried is the last thing but one of the run,
    followed by the file-not-found message naming the terraform binary. *)
Theorem terraform_not_installed t a y wd fs typed :
  (forall argv fs', t argv fs' = None) ->
  Text.lstrip a <> "removeplanfile" ->
  let q := snd (Main t (mkArgs a y) (start wd fs typed)) in
  files q = fs
  /\ (forall path, ~ In (Unlink path) (trace q))
  /\ (forall argv, In (Call argv) (trace q) ->
      exists front,
        trace q
        = front ++ [Call argv;
                    Print (file_not_found (str (FileNotFoundError terraform_bin)))]).
Proof.
  intros Hdead Hk q. subst q. set (p := start wd fs typed).
  assert (Hshape : exists front evs,
             files (snd (Main t (mkArgs a y) p)) = fs
             /\ trace (snd (Main t (mkArgs a y) p)) = front ++ evs
             /\ (forall e, In e front -> is_command e = false)
             /\ (evs = [] \/ (exists m, evs = [Print m])
                 \/ exists argv,
                      evs = [Call argv;
                             Print (file_not_found (str (FileNotFoundError terraform_bin)))])).
  { destruct (CheckEnvironment_cases AFILE p) as [[env Hc]|[x Hc]].
    - assert (Hc' : fst (CheckEnvironment AFILE p) = Return env) by now rewrite Hc.
      rewrite (Main_resolved t a y p env Hc').
      destruct (confirms (Text.lstrip a) && negb y).
      + rewrite try_prompt. subst p. cbn [stdin log start].
        destruct typed as [|answer rest].
        * rewrite except_clauses_report.
          exists [Open AFILE; Input (PromptQuestion (Text.upper (Text.lstrip a)) env)],
            [Print (report EOFError)].
          repeat split; eauto. intros e [<-|[<-|[]]]; reflexivity.
        * destruct (String.eqb (Text.lstrip answer) "yes").
          -- match goal with
             | |- context [try_except _ _ ?q0] =>
                 destruct (runner_not_started t (Text.lstrip a) q0 Hdead Hk)
                   as (evs & -> & Hevs)
             end.
             exists [Open AFILE; Input (PromptQuestion (Text.upper (Text.lstrip a)) env)],
               evs.
             repeat split; auto. intros e [<-|[<-|[]]]; reflexivity.
          -- exists [Open AFILE; Input (PromptQuestion (Text.upper (Text.lstrip a)) env)],
               [].
             repeat split; auto. intros e [<-|[<-|[]]]; reflexivity.
      + destruct (runner_not_started t (Text.lstrip a) (log (Open AFILE) p) Hdead Hk)
          as (evs & -> & Hevs).
        exists [Open AFILE], evs. repeat split; auto. intros e [<-|[]]; reflexivity.
    - assert (Hc' : fst (CheckEnvironment AFILE p) = Raise x) by now rewrite Hc.
      rewrite (Main_check_raises t _ p x Hc').
      exists [Open AFILE], [Print (report x)].
      repeat split; eauto. intros e [<-|[]]; reflexivity. }
  destruct Hshape as (front & evs & Hfiles & Ht & Hfront & Hevs).
  split; [exact Hfiles|]. rewrite Ht. now apply not_started_shape.
Qed.

Lemma terraform_not_installed_witness :
  files (snd (Main terraform_missing (mkArgs "plan" true)
                (start "/infra/testing"
                   (<[".tfplan" := Readable "stale"]> (directory "#environment|testing"))
                   [])))
  = <[".tfplan" := Readable "stale"]> (directory "#environment|testing").
Proof.
  refine (proj1 (terraform_not_installed terraform_missing "plan" true "/infra/testing"
                   (<[".tfplan" := Readable "stale"]> (directory "#environment|testing"))
                   [] (fun _ _ => eq_refl) _)).
  discriminate.
Defined.

(** ** The plan file, continued *)

(** X11: in a resolved environment, [removeplanfile] with a [.tfplan] in the
    directory deletes that file, says so, and does nothing else, whatever
    the bypass flag and whatever terraform is (it is not called); every
    other file of the directory stays. *)
Theorem removeplanfile_removes t a y p env n :
  Text.lstrip a = "removeplanfile" ->
  fst (CheckEnvironment AFILE p) = Return env ->
  files p !! ".tfplan" = Some n ->
  Main t (mkArgs a y) p
  = (Return tt,
     mkProcess (cwd p) (delete ".tfplan" (files p)) (stdin p)
       (trace p ++ [Open AFILE; Unlink ".tfplan"; Print removed_plan_file]))
  /\ forall path, path <> ".tfplan" ->
       delete ".tfplan" (files p) !! path = files p !! path.
Proof.
  intros Ha Hc Hn. split.
  - rewrite (Main_direct t a y p env Hc) by (rewrite Ha; simpl; auto).
    rewrite Ha. unfold try_except. cbn [runner String.eqb Ascii.eqb Bool.eqb].
    run_action. rewrite Hn. simpl. rewrite Hn. unfold log, with_files. simpl.
    now rewrite <- ?app_assoc.
  - intros path Hp. now apply lookup_delete_ne.
Qed.

Lemma removeplanfile_removes_witness :
  Main terraform_missing (mkArgs "removeplanfile" false)
    (start "/infra/testing"
       (<[".tfplan" := Readable "plan"]> (directory "#environment|testing")) [])
  = (Return tt,
     mkProcess "/infra/testing" (directory "#environment|testing") []
       [Open AFILE; Unlink ".tfplan"; Print removed_plan_file]).
Proof.
  exact (proj1 (removeplanfile_removes terraform_missing "removeplanfile" false
                  (start "/infra/testing"
                     (<[".tfplan" := Readable "plan"]> (directory "#environment|testing")) [])
                  TESTING (Readable "plan") eq_refl eq_refl eq_refl)).
Defined.

(** ** The environment check: what is and is not looked at *)

(** X12: a first line of exactly two fields whose second field is not the
    base name of the working directory, or is none of the four names, makes
    the check raise the [ValueError] that speaks of an invalid or unknown
    working directory: a message other than the one for a line of the wrong
    format. *)
Theorem CheckEnvironment_mismatch afile p contents tag name :
  files p !! afile = Some (Readable contents) ->
  Text.split "|" (Text.strip (Text.readline contents)) = [tag; name] ->
  (forall env, In (name, env) known_environments -> Text.basename (cwd p) <> name) ->
  CheckEnvironment afile p
  = (Raise (ValueError invalid_environment), log (Open afile) p)
  /\ invalid_environment <> invalid_format.
Proof.
  intros Hf Hs Hno. split; [|discriminate].
  run_check. rewrite Hf. simpl. rewrite Hs. simpl.
  unfold known_environments in Hno. simpl in Hno.
  repeat (match goal with
          | |- context [String.eqb ?a ?b] => destruct (String.eqb_spec a b); simpl
          end);
    try reflexivity; subst; exfalso;
    first [ congruence | eapply Hno; [eauto 6 | eassumption] ].
Qed.

Lemma CheckEnvironment_mismatch_witness :
  CheckEnvironment AFILE
    (start "/infra/staging" (directory "#environment|production") [])
  = (Raise (ValueError invalid_environment),
     log (Open AFILE) (start "/infra/staging" (directory "#environment|production") [])).
Proof.
  refine (proj1 (CheckEnvironment_mismatch AFILE
                   (start "/infra/staging" (directory "#environment|production") [])
                   ("#environment|production" +:+ String Text.LF "# VARIABLES")
                   "#environment" "production" eq_refl eq_refl _)).
  intros env _. discriminate.
Defined.

Module LineFacts.
Import Text.

Lemma not_counted c sep s :
  count sep (String c s) = 0 -> Ascii.eqb c sep = false /\ count sep s = 0.
Proof. simpl. destruct (Ascii.eqb c sep); simpl; [discriminate | auto]. Qed.

Lemma readline_app_LF s r :
  readline (s +:+ String LF r) = readline (s +:+ String LF "").
Proof.
  induction s as [|c s IH]; simpl; [reflexivity|].
  destruct (Ascii.eqb c LF || Ascii.eqb c CR); [reflexivity | now rewrite IH].
Qed.

Lemma readline_one_line s r : one_line s -> readline (s +:+ r) = s +:+ readline r.
Proof.
  unfold one_line. induction s as [|c s IH]; simpl; [reflexivity|].
  intros [[H1 H1']%(not_counted c LF s) [H2 H2']%(not_counted c CR s)].
  rewrite H1, H2. simpl. now rewrite IH.
Qed.

Lemma lstrip_app_nonspace s c x :
  isspace c = false -> lstrip (s +:+ String c x) = lstrip s +:+ String c x.
Proof.
  intros Hc. induction s as [|d s IH]; simpl; [now rewrite Hc|].
  destruct (isspace d); [exact IH | reflexivity].
Qed.

Lemma rstrip_app s r : rstrip r <> "" -> rstrip (s +:+ r) = s +:+ rstrip r.
Proof.
  intros Hr. induction s as [|c s IH]; simpl; [reflexivity|].
  rewrite IH. change (String c s +:+ rstrip r) with (String c (s +:+ rstrip r)).
  destruct (s +:+ rstrip r) eqn:E; [|reflexivity].
  destruct s; simpl in E; [contradiction | discriminate].
Qed.

Lemma split_app sep s r :
  count sep s = 0 -> split sep (s +:+ String sep r) = s :: split sep r.
Proof.
  induction s as [|c s IH]; simpl.
  - intros _. now rewrite Ascii.eqb_refl.
  - intros [H1 H2]%(not_counted c sep s). rewrite H1, (IH H2). reflexivity.
Qed.

Lemma length_append s t :
  String.length (s +:+ t) = String.length s + String.length t.
Proof. induction s as [|c s IH]; simpl; [reflexivity | now rewrite IH]. Qed.

Lemma append_cancel_r s1 s2 t : s1 +:+ t = s2 +:+ t -> s1 = s2.
Proof.
  revert s2. induction s1 as [|c s1 IH]; intros [|d s2] H; simpl in H.
  - reflexivity.
  - apply (f_equal String.length) in H. simpl in H. rewrite ?length_append in H.
    simpl in H. lia.
  - apply (f_equal String.length) in H. simpl in H. rewrite ?length_append in H.
    simpl in H. lia.
  - injection H as -> H. f_equal. now apply IH.
Qed.

End LineFacts.

(** X13: the field before the bar is not looked at.  Whatever stands there,
    as long as it has no bar and no end of line in it (nothing at all will
    do), a first line that ends in a bar and one of the four names resolves
    in the directory of that name. *)
Theorem any_tag_resolves afile p tag name env rest :
  In (name, env) known_environments ->
  count "|" tag = 0 ->
  one_line tag ->
  files p !! afile = Some (Readable (tag +:+ "|" +:+ name +:+ String Text.LF rest)) ->
  Text.basename (cwd p) = name ->
  fst (CheckEnvironment afile p) = Return env.
Proof.
  intros Hin Hbar Hline Hf Hb. apply CheckEnvironment_Return.
  eexists _, (Text.lstrip tag), name. split; [exact Hf|]. split; [|auto].
  rewrite (LineFacts.readline_one_line _ _ Hline).
  assert (Hbar' : count "|" (Text.lstrip tag) = 0)
    by now rewrite TextFacts.count_lstrip.
  unfold known_environments in Hin. simpl in Hin.
  destruct Hin as [[= <- <-]|[[= <- <-]|[[= <- <-]|[[= <- <-]|[]]]]];
    simpl Text.readline; unfold Text.strip;
    rewrite LineFacts.lstrip_app_nonspace by reflexivity;
    rewrite LineFacts.rstrip_app by discriminate;
    simpl Text.rstrip; now rewrite (LineFacts.split_app "|" _ _ Hbar').
Qed.

Lemma any_tag_resolves_witness :
  fst (CheckEnvironment AFILE
         (start "/infra/production"
            {[ AFILE := Readable ("|production" +:+ String Text.LF "") ]} []))
  = Return PRODUCTION.
Proof.
  apply (any_tag_resolves AFILE _ "" "production" PRODUCTION "").
  - simpl. auto.
  - reflexivity.
  - split; reflexivity.
  - reflexivity.
  - reflexivity.
Defined.

(** X14: of a variables file that reads as text, only the first line
    counts: two such files whose texts begin with the same line give the
    same answer, whatever text follows. *)
Theorem rest_of_file_ignored afile p1 p2 line rest1 rest2 :
  cwd p1 = cwd p2 ->
  files p1 !! afile = Some (Readable (line +:+ String Text.LF rest1)) ->
  files p2 !! afile = Some (Readable (line +:+ String Text.LF rest2)) ->
  fst (CheckEnvironment afile p1) = fst (CheckEnvironment afile p2).
Proof.
  intros Hcwd H1 H2. run_check. rewrite H1, H2, Hcwd. simpl.
  rewrite (LineFacts.readline_app_LF line rest1), (LineFacts.readline_app_LF line rest2).
  repeat (match goal with
          | |- context [if ?b then _ else _] => destruct b
          end); reflexivity.
Qed.

Lemma rest_of_file_ignored_witness :
  fst (CheckEnvironment AFILE
         (start "/infra/testing"
            {[ AFILE := Readable ("#environment|testing" +:+ String Text.LF "a|b|c") ]} []))
  = fst (CheckEnvironment AFILE
           (start "/infra/testing"
              {[ AFILE := Readable ("#environment|testing" +:+ String Text.LF "") ]} [])).
Proof.
  exact (rest_of_file_ignored AFILE
           (start "/infra/testing"
              {[ AFILE := Readable ("#environment|testing" +:+ String Text.LF "a|b|c") ]} [])
           (start "/infra/testing"
              {[ AFILE := Readable ("#environment|testing" +:+ String Text.LF "") ]} [])
           "#environment|testing" "a|b|c" "" eq_refl eq_refl eq_refl).
Defined.

(** ** The prompt *)

(** X15: the question put to the operator tells the action and the
    environment apart: two prompts are the same text only for the same
    action text and the same member of the enumeration. *)
Theorem PromptQuestion_injective a1 a2 env1 env2 :
  PromptQuestion a1 env1 = PromptQuestion a2 env2 -> a1 = a2 /\ env1 = env2.
Proof.
  unfold PromptQuestion. intros H.
  destruct env1, env2; simpl in H; try discriminate H;
    (split; [|reflexivity]);
    repeat (injection H as H);
    exact (LineFacts.append_cancel_r a1 a2 _ H).
Qed.

Lemma PromptQuestion_injective_witness :
  "APPLY" = "APPLY" /\ STAGING = STAGING.
Proof.
  exact (PromptQuestion_injective "APPLY" "APPLY" STAGING STAGING eq_refl).
Defined.
